(** * flappysomnia: the transaction reliability layer

    A shallow embedding of the client-side transaction queue
    ([src/hooks/useTransactionQueue.ts]), the jump batching, the gas pricing,
    the end of a game and the user counter of the custodial wallet
    ([src/hooks/useCustodialWallet.ts]), the leaderboard merge, its cache and
    its fetch ([src/hooks/useLeaderboard.ts]), the contract hook
    ([useFlappyContract]: [sendTransactionWithRetry], [startGame], [endGame])
    and the network switch ([config/contract]: [switchToSomniaTestnet]).

    Conventions of the model.
    - JavaScript numbers that the code uses as integers (timestamps in ms,
      scores, game ids, wei amounts) are [Z]; [Math.floor] is then the
      identity and [NaN] does not occur.
    - A property that may hold [undefined] is an [option]; a key of a
      [Partial<...>] object that may be absent is one more [option] around it.
    - [localStorage] is a finite map from keys to the values the code stores
      there, already parsed; a text that [JSON.parse] rejects is [Unparsable].
      An item that is read as one kind of value and holds another is treated
      like such a text.  Writes to it are assumed to succeed.
    - [console.log] and the other logging calls have no counterpart.
    - [Date.now()] is a parameter [now] of the operation that reads it, a
      function of the place of the call where an operation reads it at
      several places.
    - What the wallet, the provider and the contract answer is a parameter of
      the operation: a record with one outcome per call that is awaited. *)

From Stdlib Require Import ZArith String.
From Equations Require Import Equations.
From stdpp Require Import base option list strings pretty gmap sorting.

Open Scope Z_scope.

(** ** Data model *)

(** [QueuedTransaction['type']]: ['start' | 'end' | 'jump']. *)
Inductive TxType := tx_start | tx_end | tx_jump.

(** [QueuedTransaction['status']]: ['pending' | 'confirmed' | 'failed']. *)
Inductive Status := pending | confirmed | failed.

#[global] Instance TxType_eq_dec : EqDecision TxType.
Proof. solve_decision. Defined.

#[global] Instance Status_eq_dec : EqDecision Status.
Proof. solve_decision. Defined.

(** The [data?: any] payload, with the properties that the functions modelled
    here write and read. *)
Record TxData := mkData {
  d_gameId : option Z;
  d_finalScore : option Z;
  d_totalJumps : option Z;
  d_jumps : option Z;
  d_batchNumber : option Z;
  d_totalBatches : option Z;
  d_address : option string;
  d_localOnly : option bool;
  d_error : option string;
  d_timestamp : option Z
}.

#[global] Instance TxData_eq_dec : EqDecision TxData.
Proof. solve_decision. Defined.

(** [interface QueuedTransaction].  [status] is declared mandatory, but the
    object spread in [updateTransaction] can store [undefined] there, so the
    field is an [option]. *)
Record QueuedTransaction := mkTx {
  tx_id : string;
  tx_type : TxType;
  tx_status : option Status;
  tx_timestamp : Z;
  tx_hash : option string;
  tx_data : option TxData;
  tx_error : option string
}.

#[global] Instance QueuedTransaction_eq_dec : EqDecision QueuedTransaction.
Proof. solve_decision. Defined.

(** [Partial<QueuedTransaction>]: [None] is an absent key. *)
Record Partial := mkPartial {
  p_id : option string;
  p_type : option TxType;
  p_status : option (option Status);
  p_timestamp : option Z;
  p_hash : option (option string);
  p_data : option (option TxData);
  p_error : option (option string)
}.

(** The entries of [flappySomnia_localScores]: [{gameId, address, score,
    totalJumps, timestamp}].  [ls_address] is [None] when the property is
    missing or is not a string. *)
Record LocalScore := mkLocalScore {
  ls_gameId : option Z;
  ls_address : option string;
  ls_score : option Z;
  ls_totalJumps : option Z;
  ls_timestamp : option Z
}.

(** [interface LeaderboardEntry]. *)
Record LeaderboardEntry := mkEntry {
  e_address : string;
  e_score : Z;
  e_timestamp : Z
}.

#[global] Instance LeaderboardEntry_eq_dec : EqDecision LeaderboardEntry.
Proof. solve_decision. Defined.

(** What a [localStorage] item holds once parsed. *)
Inductive Blob :=
| QueueBlob (txs : list QueuedTransaction)
| ScoresBlob (scores : list LocalScore)
| CacheBlob (entries : list LeaderboardEntry) (savedAt : Z)
| Unparsable.

Abbreviation Storage := (gmap string Blob).

(** ** The transaction queue hook *)

Module Queue.

Definition TRANSACTION_STORAGE_KEY : string := "flappySomnia_transactionQueue".

Definition is_pending (tx : QueuedTransaction) : bool :=
  bool_decide (tx_status tx = Some pending).

(** [queue.some(tx => tx.status === 'pending')] *)
Definition hasPending (queue : list QueuedTransaction) : bool :=
  existsb is_pending queue.

(** The state of one [useTransactionQueue] instance together with the
    [localStorage] it writes to, and the queues that a [setTimeout] of
    [updateTransaction] is still to save. *)
Record Hook := mkHook {
  queue : list QueuedTransaction;
  isPending : bool;
  storage : Storage;
  timers : list (list QueuedTransaction)
}.

(** [addToQueue]: [[...prevQueue, transaction]]. *)
Definition addToQueue (transaction : QueuedTransaction)
    (prevQueue : list QueuedTransaction) : list QueuedTransaction :=
  prevQueue ++ [transaction].

(** [updateTransactionStatus] (not exported by the hook):
    [{ ...tx, status, hash, error }] on every record with that id. *)
Definition updateTransactionStatus (id : string) (status : Status)
    (hash error : option string) (prevQueue : list QueuedTransaction)
    : list QueuedTransaction :=
  map (fun tx =>
         if bool_decide (tx_id tx = id)
         then mkTx (tx_id tx) (tx_type tx) (Some status) (tx_timestamp tx)
                   hash (tx_data tx) error
         else tx) prevQueue.

(** [{ ...updates, status: updates.status ? String(updates.status) : undefined }]:
    the result always has a [status] key, holding [undefined] when the
    argument has none. *)
Definition normalize (updates : Partial) : Partial :=
  mkPartial (p_id updates) (p_type updates)
            (Some (match p_status updates with
                   | Some (Some s) => Some s
                   | _ => None
                   end))
            (p_timestamp updates) (p_hash updates) (p_data updates)
            (p_error updates).

(** [const { status, ...otherUpdates } = normalizedUpdates] *)
Definition omit_status (u : Partial) : Partial :=
  mkPartial (p_id u) (p_type u) None (p_timestamp u) (p_hash u) (p_data u)
            (p_error u).

(** [{ ...tx, ...u }]: every key of [u] overwrites, also one that holds
    [undefined]. *)
Definition spread (tx : QueuedTransaction) (u : Partial) : QueuedTransaction :=
  mkTx (default (tx_id tx) (p_id u))
       (default (tx_type tx) (p_type u))
       (default (tx_status tx) (p_status u))
       (default (tx_timestamp tx) (p_timestamp u))
       (default (tx_hash tx) (p_hash u))
       (default (tx_data tx) (p_data u))
       (default (tx_error tx) (p_error u)).

(** [updateTransaction]: the state updater passed to [setQueue].  [list_find]
    is [findIndex] together with [prevQueue[index]].  The save it schedules
    is [schedulesSave] below. *)
Definition updateTransaction (id : string) (updates : Partial)
    (prevQueue : list QueuedTransaction) : list QueuedTransaction :=
  let normalizedUpdates := normalize updates in
  match list_find (fun tx => tx_id tx = id) prevQueue with
  | None => prevQueue
  | Some (index, current) =>
      if bool_decide (p_status normalizedUpdates = Some (Some pending))
         && bool_decide (tx_status current = Some confirmed)
      then <[index := spread current (omit_status normalizedUpdates)]> prevQueue
      else <[index := spread current normalizedUpdates]> prevQueue
  end.

(** [updateTransaction] sets a timer that saves the new queue when it found
    the record and the normalised status is ['confirmed']. *)
Definition schedulesSave (id : string) (updates : Partial)
    (prevQueue : list QueuedTransaction) : bool :=
  bool_decide (is_Some (list_find (fun tx => tx_id tx = id) prevQueue))
  && bool_decide (p_status (normalize updates) = Some (Some confirmed)).

(** [canProcessTransaction]: [!isPending], whatever the type. *)
Definition canProcessTransaction (type : string) (h : Hook) : bool :=
  negb (isPending h).

Definition ONE_HOUR : Z := 60 * 60 * 1000.

(** [clearOldTransactions]: keep what is pending or recent. *)
Definition clearOldTransactions (now : Z) (prevQueue : list QueuedTransaction)
    : list QueuedTransaction :=
  let oneHourAgo := now - ONE_HOUR in
  List.filter (fun tx => is_pending tx || (oneHourAgo <? tx_timestamp tx))
              prevQueue.

(** [clearQueue] *)
Definition clearQueue (h : Hook) : Hook :=
  mkHook [] false (delete TRANSACTION_STORAGE_KEY (storage h)) (timers h).

(** [checkAndFixPendingState]: the new state and the value returned. *)
Definition checkAndFixPendingState (h : Hook) : Hook * bool :=
  let actuallyHasPending := hasPending (queue h) in
  if isPending h && negb actuallyHasPending
  then (mkHook (queue h) false
               (<[TRANSACTION_STORAGE_KEY := QueueBlob (queue h)]> (storage h))
               (timers h),
        actuallyHasPending)
  else (h, actuallyHasPending).

(** [forceSave] *)
Definition forceSave (h : Hook) : Hook :=
  mkHook (queue h) (isPending h)
         (<[TRANSACTION_STORAGE_KEY := QueueBlob (queue h)]> (storage h))
         (timers h).

(** The effect that runs after the queue changed: save, then recompute the
    flag. *)
Definition persistEffect (h : Hook) : Hook :=
  mkHook (queue h) (hasPending (queue h))
         (<[TRANSACTION_STORAGE_KEY := QueueBlob (queue h)]> (storage h))
         (timers h).

(** The effect that runs on mount. *)
Definition loadEffect (h : Hook) : Hook :=
  match storage h !! TRANSACTION_STORAGE_KEY with
  | Some (QueueBlob parsedQueue) =>
      mkHook parsedQueue (hasPending parsedQueue) (storage h) (timers h)
  | _ => h
  end.

(** What can happen to a mounted hook.  A state update of a callback and the
    effect that follows it are two events: between them the component has
    rendered with the new queue and the old flag. *)
Inductive Event :=
| EvAdd (transaction : QueuedTransaction)
| EvUpdate (id : string) (updates : Partial)
| EvClearOld (now : Z)
| EvClearQueue
| EvCheckAndFix
| EvForceSave
| EvPersist
| EvTimer.

Definition setQueue (f : list QueuedTransaction -> list QueuedTransaction)
    (h : Hook) : Hook :=
  mkHook (f (queue h)) (isPending h) (storage h) (timers h).

(** The call of [updateTransaction]: the queue is updated and, when the
    update confirms a record, a timer is set for the new queue. *)
Definition callUpdate (id : string) (updates : Partial) (h : Hook) : Hook :=
  let newQueue := updateTransaction id updates (queue h) in
  mkHook newQueue (isPending h) (storage h)
         (if schedulesSave id updates (queue h) then timers h ++ [newQueue]
          else timers h).

(** The oldest timer fires: the queue it was set for is saved. *)
Definition fireTimer (h : Hook) : Hook :=
  match timers h with
  | [] => h
  | newQueue :: rest =>
      mkHook (queue h) (isPending h)
             (<[TRANSACTION_STORAGE_KEY := QueueBlob newQueue]> (storage h))
             rest
  end.

Definition step (h : Hook) (e : Event) : Hook :=
  match e with
  | EvAdd transaction => setQueue (addToQueue transaction) h
  | EvUpdate id updates => callUpdate id updates h
  | EvClearOld now => setQueue (clearOldTransactions now) h
  | EvClearQueue => clearQueue h
  | EvCheckAndFix => fst (checkAndFixPendingState h)
  | EvForceSave => forceSave h
  | EvPersist => persistEffect h
  | EvTimer => fireTimer h
  end.

(** The hook after mounting over a given [localStorage]. *)
Definition mount (s : Storage) : Hook := loadEffect (mkHook [] false s []).

Inductive reachable : Hook -> Prop :=
| reach_mount s : reachable (mount s)
| reach_step h e : reachable h -> reachable (step h e).

(** The queues a sequence of [updateTransaction] calls goes through. *)
Fixpoint updateTrace (q : list QueuedTransaction)
    (calls : list (string * Partial)) : list (list QueuedTransaction) :=
  q :: match calls with
       | [] => []
       | (id, updates) :: rest => updateTrace (updateTransaction id updates q) rest
       end.

End Queue.

(** ** JavaScript strings, errors and asynchronous code *)

Module Js.

(** [hay.includes(needle)] *)
Fixpoint includes (needle hay : string) : bool :=
  String.prefix needle hay
  || match hay with
     | EmptyString => false
     | String _ rest => includes needle rest
     end.

Definition lower_ascii (c : Ascii.ascii) : Ascii.ascii :=
  let n := Ascii.N_of_ascii c in
  if ((65 <=? n) && (n <=? 90))%N then Ascii.ascii_of_N (n + 32) else c.

(** [s.toLowerCase()], on ASCII text. *)
Fixpoint toLowerCase (s : string) : string :=
  match s with
  | EmptyString => EmptyString
  | String c rest => String (lower_ascii c) (toLowerCase rest)
  end.

(** A string used as a condition. *)
Definition truthy (s : string) : bool := negb (String.eqb s "").

(** A number printed by a template literal. *)
Definition show (z : Z) : string := pretty z.

(** A thrown value: an object whose [message] may be missing. *)
Record Error := mkError { message : option string }.

(** [new Error(m)] *)
Definition error (m : string) : Error := mkError (Some m).

(** [error.message?.includes(needle)] used as a condition. *)
Definition message_includes (e : Error) (needle : string) : bool :=
  match message e with
  | Some m => includes needle m
  | None => false
  end.

(** What [undefined.includes(..)] throws. *)
Definition TYPE_ERROR : Error :=
  error "Cannot read properties of undefined (reading 'includes')".

(** How a call ends. *)
Inductive Outcome (A : Type) :=
| Returned (a : A)
| Thrown (e : Error).
Arguments Returned {A} a.
Arguments Thrown {A} e.

(** Code that reads and writes a world [W] and may throw; what it wrote
    before throwing stays written. *)
Definition M (W A : Type) : Type := W -> Outcome A * W.

Definition ret {W A} (a : A) : M W A := fun w => (Returned a, w).

Definition bind {W A B} (m : M W A) (k : A -> M W B) : M W B :=
  fun w => match m w with
           | (Returned a, w') => k a w'
           | (Thrown e, w') => (Thrown e, w')
           end.

Definition throw {W A} (e : Error) : M W A := fun w => (Thrown e, w).

(** [await p], for a promise whose outcome the environment fixes. *)
Definition await {W A} (o : Outcome A) : M W A := fun w => (o, w).

Definition modify {W} (f : W -> W) : M W unit := fun w => (Returned tt, f w).

Definition gets {W A} (f : W -> A) : M W A := fun w => (Returned (f w), w).

(** [try { body } catch (e) { handler }] *)
Definition tryCatch {W A} (body : M W A) (handler : Error -> M W A) : M W A :=
  fun w => match body w with
           | (Returned a, w') => (Returned a, w')
           | (Thrown e, w') => handler e w'
           end.

(** [try { body } finally { cleanup }] *)
Definition tryFinally {W A} (body : M W A) (cleanup : W -> W) : M W A :=
  fun w => let '(r, w') := body w in (r, cleanup w').

(** [error.message.includes(needle)]: throws when there is no message. *)
Definition message_includes_strict {W} (e : Error) (needle : string) : M W bool :=
  match message e with
  | Some m => ret (includes needle m)
  | None => throw TYPE_ERROR
  end.

End Js.

Declare Scope js_scope.
Delimit Scope js_scope with js.
Notation "'let*' x ':=' m 'in' k" := (Js.bind m (fun x => k))
  (at level 10, x name, m at level 100, k at level 200) : js_scope.

(** ** What the code sees of ethers.js *)

Module Ethers.

(** A transaction receipt: whether [receipt.status] is truthy, and
    [receipt.hash]. *)
Record Receipt := mkReceipt {
  r_status : bool;
  r_hash : option string
}.

(** How waiting for a sent transaction ends. *)
Inductive WaitOutcome :=
| Mined (receipt : Receipt)
| WaitRejected (e : Js.Error)
| NeverSettles.

(** [Promise.race([tx.wait(), timer])], the timer rejecting with
    [new Error(timeoutMessage)]. *)
Definition race (w : WaitOutcome) (timeoutMessage : string)
    : Js.Outcome Receipt :=
  match w with
  | Mined receipt => Js.Returned receipt
  | WaitRejected e => Js.Thrown e
  | NeverSettles => Js.Thrown (Js.error timeoutMessage)
  end.

(** The overrides object passed with a contract call. *)
Record Overrides := mkOverrides {
  o_gasLimit : Z;
  o_gasPrice : option Z;
  o_type : option Z;
  o_nonce : option Z
}.

End Ethers.

(** ** The custodial wallet hook: jump batching and gas pricing *)

Module Wallet.

(** [interface JumpData] *)
Record JumpData := mkJump {
  timestamp : Z;
  scoreAtJump : Z;
  multiplierAtJump : Z
}.

Record State := mkState {
  pendingJumps : list JumpData;
  processedJumps : list JumpData;
  totalJumps : Z;
  transactionQueue : list QueuedTransaction
}.

(** [x || d] on integers: [0] is the only falsy one. *)
Definition or_else (x d : Z) : Z := if x =? 0 then d else x.

(** [l.slice(-k)] *)
Definition lastn {A} (k : nat) (l : list A) : list A :=
  drop (length l - k)%nat l.

(** The jump that [addJumpToBatch] stores for [jumpData]. *)
Definition storedJump (jumpData : JumpData) : JumpData :=
  mkJump (timestamp jumpData)
         (or_else (scoreAtJump jumpData) 1)
         (or_else (multiplierAtJump jumpData) 1).

(** [Math.ceil(a / 10)] for an integer [a]. *)
Definition ceil_div10 (a : Z) : Z := - ((- a) / 10).

(** [addJumpToBatch]; the update of [processedJumps], deferred to the next
    tick in the source, is applied at once. *)
Definition addJumpToBatch (now : Z) (jumpData : JumpData) (st : State) : State :=
  let jump := storedJump jumpData in
  let newJumps := pendingJumps st ++ [jump] in
  if (10 <=? length newJumps)%nat then
    let batchToProcess := take 10 newJumps in
    mkState (drop 10 newJumps)
            (lastn 50 (processedJumps st ++ batchToProcess))
            (totalJumps st + 1)
            (Queue.addToQueue
               (mkTx ("batch-" +:+ Js.show now) tx_jump (Some confirmed) now None
                     (Some (mkData None None None
                                   (Some (Z.of_nat (length batchToProcess)))
                                   (Some ((totalJumps st + 1) / 10 + 1))
                                   (Some (ceil_div10 (totalJumps st + 2)))
                                   None None None None))
                     None)
               (transactionQueue st))
  else
    mkState newJumps (processedJumps st) (totalJumps st + 1)
            (transactionQueue st).

(** [20e9] wei, 20 gwei. *)
Definition DEFAULT_GAS_PRICE : Z := 20000000000.

(** [feeData.gasPrice ? gasPrice * 150 / 100 : 20e9], on big integers whose
    division truncates.  [None] is a [null] gas price. *)
Definition legacyGasPrice (gasPrice : option Z) : Z :=
  match gasPrice with
  | Some g => Z.quot (g * 150) 100
  | None => DEFAULT_GAS_PRICE
  end.

(** One [Date.now()] per place that reads the clock. *)
Inductive Site := AtTxId | AtPending | AtConfirmed | AtData | AtFailed.

(** What the network answers during one [handleEndGame]. *)
Record Env := mkEnv {
  now : Site -> Z;
  getFeeData : Js.Outcome (option Z);
  endGameTx : Js.Outcome string;
  waitTx : Ethers.WaitOutcome
}.

(** The state of the hook, and the contract calls it has made. *)
Record World := mkWorld {
  w_state : State;
  w_sent : list Ethers.Overrides
}.

Definition withQueue (f : list QueuedTransaction -> list QueuedTransaction)
    (w : World) : World :=
  let st := w_state w in
  mkWorld (mkState (pendingJumps st) (processedJumps st) (totalJumps st)
                   (f (transactionQueue st)))
          (w_sent w).

(** [setPendingJumps([]); setProcessedJumps([]); setTotalJumps(0)] *)
Definition clearGameState (w : World) : World :=
  mkWorld (mkState [] [] 0 (transactionQueue (w_state w))) (w_sent w).

Definition recordCall (o : Ethers.Overrides) (w : World) : World :=
  mkWorld (w_state w) (w_sent w ++ [o]).

Record EndGameReceipt := mkEndGameReceipt {
  eg_gameId : Z;
  eg_finalScore : Z;
  eg_totalJumps : Z;
  eg_hash : option string
}.

(** [error.message || 'Unknown error'] *)
Definition messageOr (e : Js.Error) (d : string) : string :=
  match Js.message e with
  | Some m => if Js.truthy m then m else d
  | None => d
  end.

(** The message [handleEndGame] throws for a failure. *)
Definition clearerMessage (e : Js.Error) : string :=
  let errorMessage := messageOr e "Unknown error" in
  if Js.includes "gasPrice" errorMessage
  then "Network connection issue. Please try again."
  else if Js.includes "dynamicFee" errorMessage
  then "Transaction type not supported. Please try again."
  else if Js.includes "timeout" errorMessage
  then "Transaction took too long. The game score may still be saved."
  else if Js.includes "rejected" errorMessage
  then "Transaction was rejected. Please try again."
  else errorMessage.

Section HandleEndGame.
Open Scope js_scope.

(** [state.wallet] is set; [canProcessTransaction('end')]. *)
Variables (walletReady canProcess : bool).
Variable env : Env.
Variables (gameId finalScore : Z).

(** [handleEndGame].  [totalJumps] and [processedJumps] are the values the
    callback closed over, those of the state it starts in. *)
Definition handleEndGame : Js.M World EndGameReceipt := fun w0 =>
  let jumpsTotal := totalJumps (w_state w0) in
  let data :=
    mkData (Some gameId) (Some finalScore) (Some jumpsTotal)
           (Some (Z.of_nat (length (processedJumps (w_state w0)))))
           None None None None None None in
  let confirmedData :=
    mkData (Some gameId) (Some finalScore) (Some jumpsTotal)
           (Some (Z.of_nat (length (processedJumps (w_state w0)))))
           None None None None None (Some (now env AtData)) in
  let txId := "end-" +:+ Js.show gameId +:+ "-" +:+ Js.show (now env AtTxId) in
  (if negb walletReady then Js.throw (Js.error "Wallet not initialized")
   else if negb canProcess
   then Js.throw (Js.error
     "A transaction is already in progress. Please wait for it to complete.")
   else
     Js.tryCatch
       (let* _ := Js.modify (withQueue (Queue.addToQueue
                    (mkTx txId tx_end (Some pending) (now env AtPending) None
                          (Some data) None))) in
        let* feeData := Js.await (getFeeData env) in
        let gasPrice := legacyGasPrice feeData in
        let* _ := Js.modify (recordCall
                    (Ethers.mkOverrides 5000000 (Some gasPrice) (Some 0) None)) in
        let* hash := Js.await (endGameTx env) in
        let* _ := Js.modify (withQueue (Queue.updateTransaction txId
                    (mkPartial None None (Some (Some pending)) None
                               (Some (Some hash)) None None))) in
        let* receipt := Js.await
                    (Ethers.race (waitTx env) "Transaction timeout after 60s") in
        let* _ := Js.modify clearGameState in
        let* _ := Js.modify (withQueue (Queue.addToQueue
                    (mkTx txId tx_end (Some confirmed) (now env AtConfirmed)
                          (Ethers.r_hash receipt) (Some confirmedData) None))) in
        Js.ret (mkEndGameReceipt gameId finalScore jumpsTotal
                                 (Ethers.r_hash receipt)))
       (fun error =>
        let* _ := Js.modify (withQueue (Queue.addToQueue
                    (mkTx txId tx_end (Some failed) (now env AtFailed) None
                          (Some data) (Some (messageOr error "Unknown error"))))) in
        let* _ := Js.modify clearGameState in
        Js.throw (Js.error (clearerMessage error)))) w0.

End HandleEndGame.

End Wallet.

(** ** The leaderboard hook *)

Module Leaderboard.

Definition QUEUE_KEY_READ : string := "flappyFuse_transactionQueue".
Definition SCORES_KEY_READ : string := "flappyFuse_localScores".
Definition LEADERBOARD_CACHE_KEY : string := "flappySomnia_leaderboardCache".

(** The values of the [localScores] object built from the queue. *)
Record ScoreCell := mkCell {
  c_score : Z;
  c_timestamp : Z;
  c_address : string
}.

(** The end-game records that carry a score and a game id, with both. *)
Definition endGameScore (tx : QueuedTransaction) : option (Z * Z) :=
  if bool_decide (tx_type tx = tx_end)
     && bool_decide (tx_status tx = Some confirmed)
  then match tx_data tx with
       | Some d =>
           match d_finalScore d, d_gameId d with
           | Some finalScore, Some gameId => Some (gameId, finalScore)
           | _, _ => None
           end
       | None => None
       end
  else None.

(** [tx.data.address ? String(tx.data.address) : 'local_player'] *)
Definition addressOf (tx : QueuedTransaction) : string :=
  match tx_data tx with
  | Some d =>
      match d_address d with
      | Some a => if Js.truthy a then a else "local_player"
      | None => "local_player"
      end
  | None => "local_player"
  end.

(** The object [localScores], keyed by [gameId.toString()], as the list of
    its properties in the order they were created. *)
Fixpoint assign (gameId : Z) (cell : ScoreCell) (o : list (Z * ScoreCell))
    : list (Z * ScoreCell) :=
  match o with
  | [] => [(gameId, cell)]
  | (k, c) :: rest =>
      if k =? gameId then (k, cell) :: rest
      else (k, c) :: assign gameId cell rest
  end.

Fixpoint property (gameId : Z) (o : list (Z * ScoreCell)) : option ScoreCell :=
  match o with
  | [] => None
  | (k, c) :: rest => if k =? gameId then Some c else property gameId rest
  end.

(** The body of [endGameTxs.forEach]. *)
Definition recordScore (o : list (Z * ScoreCell)) (tx : QueuedTransaction)
    : list (Z * ScoreCell) :=
  match endGameScore tx with
  | Some (gameId, finalScore) =>
      let cell := mkCell finalScore (tx_timestamp tx / 1000) (addressOf tx) in
      match property gameId o with
      | None => assign gameId cell o
      | Some old =>
          if c_score old <? finalScore then assign gameId cell o else o
      end
  | None => o
  end.

(** A property name that is an array index: those come first, ascending, when
    an object's properties are listed. *)
Definition isArrayIndex (k : Z) : bool := (0 <=? k) && (k <? 4294967295).

Fixpoint insertByKey (p : Z * ScoreCell) (l : list (Z * ScoreCell))
    : list (Z * ScoreCell) :=
  match l with
  | [] => [p]
  | q :: rest => if fst p <? fst q then p :: q :: rest
                 else q :: insertByKey p rest
  end.

(** [Object.values(o)] *)
Definition objectValues (o : list (Z * ScoreCell)) : list ScoreCell :=
  map snd (foldr insertByKey [] (List.filter (fun p => isArrayIndex (fst p)) o)
           ++ List.filter (fun p => negb (isArrayIndex (fst p))) o).

Fixpoint insertByScore (e : LeaderboardEntry) (l : list LeaderboardEntry)
    : list LeaderboardEntry :=
  match l with
  | [] => [e]
  | x :: rest => if e_score e <? e_score x then x :: insertByScore e rest
                 else e :: x :: rest
  end.

(** [entries.sort((a, b) => b.score - a.score)]: highest first, entries of
    equal score in their former order. *)
Definition sortByScore (entries : list LeaderboardEntry) : list LeaderboardEntry :=
  foldr insertByScore [] entries.

(** Step 1 of [updateWithLocalScores]: the entries taken from the queue item. *)
Definition queueEntries (s : Storage) : list LeaderboardEntry :=
  match s !! QUEUE_KEY_READ with
  | Some (QueueBlob transactions) =>
      let endGameTxs :=
        List.filter (fun tx => bool_decide (is_Some (endGameScore tx)))
                    transactions in
      map (fun c => mkEntry (c_address c) (c_score c) (c_timestamp c))
          (objectValues (foldl recordScore [] endGameTxs))
  | _ => []
  end.

(** Step 2: the entries taken from the local scores item. *)
Definition localScoreEntries (now : Z) (s : Storage) : list LeaderboardEntry :=
  match s !! SCORES_KEY_READ with
  | Some (ScoresBlob localScores) =>
      omap (fun sc =>
              match ls_score sc with
              | Some score =>
                  Some (mkEntry (default "local_player" (ls_address sc))
                                score
                                (match ls_timestamp sc with
                                 | Some t => Wallet.or_else t (now / 1000)
                                 | None => now / 1000
                                 end))
              | None => None
              end) localScores
  | _ => []
  end.

(** [updateWithLocalScores] *)
Definition updateWithLocalScores (now : Z) (s : Storage)
    (currentEntries : list LeaderboardEntry) : list LeaderboardEntry :=
  let mergedEntries :=
    currentEntries ++ queueEntries s ++ localScoreEntries now s in
  take 10 (sortByScore mergedEntries).

(** [saveToLocalStorage(key, data)] *)
Definition saveToLocalStorage (now : Z) (key : string)
    (data : list LeaderboardEntry) (s : Storage) : Storage :=
  <[key := CacheBlob data now]> s.

Definition MAX_AGE : Z := 5 * 60 * 1000.

(** [getFromLocalStorage(key)]: the cached data, [None] for [null] or
    [undefined], and [localStorage] with an expired item removed. *)
Definition getFromLocalStorage (now : Z) (key : string) (s : Storage)
    : option (list LeaderboardEntry) * Storage :=
  match s !! key with
  | Some (CacheBlob data savedAt) =>
      if MAX_AGE <? now - savedAt then (None, delete key s)
      else (Some data, s)
  | _ => (None, s)
  end.


(** What [fetchLeaderboard] shows once an endpoint has answered with the
    games of the leaderboard, and [localStorage] with the cache written. *)
Definition fromChain (now : Z) (s : Storage) (games : list LeaderboardEntry)
    : list LeaderboardEntry * Storage :=
  let leaderboardData :=
    take 10 (sortByScore (List.filter (fun g => 0 <? e_score g) games)) in
  let s' := saveToLocalStorage now LEADERBOARD_CACHE_KEY leaderboardData s in
  (updateWithLocalScores now s' leaderboardData, s').

End Leaderboard.

(** ** The contract hook *)

Module Contract.

Import Ethers.

(** *** sendTransactionWithRetry *)

(** What one RPC endpoint answers during an attempt.  [formattedBalance] is
    [ethers.utils.formatEther(balance)]. *)
Record Endpoint := mkEndpoint {
  getBlockNumber : Js.Outcome Z;
  getTransactionCount : Js.Outcome Z;
  getFeeData : Js.Outcome (option Z);
  getBalance : Js.Outcome Z;
  formattedBalance : string;
  estimateGas : Js.Outcome Z;
  sendTx : Js.Outcome string;
  waitTx : WaitOutcome
}.

(** The endpoints tried so far, the transactions handed to an endpoint, and
    [options.gasLimit], which the function assigns on the caller's object. *)
Record Dispatch := mkDispatch {
  attempted : list nat;
  submitted : list (nat * Overrides);
  gasLimit : option Z
}.

Definition logAttempt (i : nat) (w : Dispatch) : Dispatch :=
  mkDispatch (attempted w ++ [i]) (submitted w) (gasLimit w).

Definition logSubmit (i : nat) (o : Overrides) (w : Dispatch) : Dispatch :=
  mkDispatch (attempted w) (submitted w ++ [(i, o)]) (gasLimit w).

Definition setGasLimit (g : Z) (w : Dispatch) : Dispatch :=
  mkDispatch (attempted w) (submitted w) (Some g).

(** How the code of one call ends: with its own result, or by returning the
    promise of the call on the next endpoint, which its [catch] does not
    see. *)
Inductive Step :=
| Finished (receipt : Receipt)
| NextEndpoint.

(** The message chosen in the [catch] block. *)
Definition specificMessage (e : Js.Error) : string :=
  if Js.message_includes e "insufficient funds"
  then "Not enough STT for gas. Please make sure your wallet has enough STT tokens."
  else if Js.message_includes e "nonce"
  then "Transaction nonce error. Please try again."
  else if Js.message_includes e "timeout"
  then "Transaction timed out. Please try again."
  else if Js.message_includes e "user rejected"
  then "Please approve the transaction in MetaMask."
  else "Transaction failed".

(** [gasPrice * BigInt(500000)] *)
Definition estimatedGasCost (gasPrice : Z) : Z := gasPrice * 500000.

Definition inspect {A} (a : A) : {b | a = b} := exist _ a eq_refl.

Section SendTransactionWithRetry.
Open Scope js_scope.

(** [RPC_ENDPOINTS.length]; the list is in [config/contract], which is not
    among the sources. *)
Variable endpoints : nat.
(** What the endpoint of each index answers. *)
Variable rpc : nat -> Endpoint.
(** [wallet] is set. *)
Variable walletReady : bool.

(** A failed probe or nonce fetch: go to the next endpoint if there is one. *)
Definition orNextEndpoint (currentEndpoint : nat) (e : Js.Error)
    : Js.M Dispatch Step :=
  if (currentEndpoint + 1 <? endpoints)%nat then Js.ret NextEndpoint
  else Js.throw e.

(** The [try] block of one call. *)
Definition tryBlock (currentEndpoint : nat) : Js.M Dispatch Step :=
  let ep := rpc currentEndpoint in
  let* _ := Js.modify (logAttempt currentEndpoint) in
  if negb walletReady then Js.throw (Js.error "Wallet not initialized")
  else
  match getBlockNumber ep with
  | Js.Thrown providerError => orNextEndpoint currentEndpoint providerError
  | Js.Returned _ =>
  match getTransactionCount ep with
  | Js.Thrown nonceError => orNextEndpoint currentEndpoint nonceError
  | Js.Returned nonce =>
      let* feeData := Js.await (getFeeData ep) in
      let gasPrice := Wallet.legacyGasPrice feeData in
      let* balance := Js.await (getBalance ep) in
      if balance <? estimatedGasCost gasPrice
      then Js.throw (Js.error ("Insufficient funds. Need at least "
                               +:+ formattedBalance ep +:+ " STT for gas."))
      else
      let* _ :=
        Js.tryCatch
          (let* gasEstimate := Js.await (estimateGas ep) in
           Js.modify (setGasLimit (Z.quot (gasEstimate * 150) 100)))
          (fun error =>
             if Js.message_includes error "insufficient funds"
             then Js.throw (Js.error
               "Not enough STT for gas. Please make sure your wallet has enough STT tokens.")
             else if Js.message_includes error "execution reverted"
             then Js.throw (Js.error ("Transaction would fail: "
                                      +:+ default "" (Js.message error)))
             else Js.modify (setGasLimit 1000000)) in
      let* limit := Js.gets gasLimit in
      let* _ := Js.modify (logSubmit currentEndpoint
                  (mkOverrides (Wallet.or_else (default 0 limit) 1000000)
                               (Some gasPrice) (Some 0) (Some nonce))) in
      let* hash := Js.await (sendTx ep) in
      let* receipt := Js.await (race (waitTx ep) "Transaction timeout") in
      if negb (r_status receipt)
      then Js.throw (Js.error "Transaction failed on-chain")
      else Js.ret (Finished receipt)
  end
  end.

(** The [catch] block of one call. *)
Definition catchBlock (currentEndpoint : nat) (error : Js.Error)
    : Js.M Dispatch Step :=
  let errorMessage := specificMessage error in
  if (currentEndpoint + 1 <? endpoints)%nat
     && (Js.message_includes error "timeout"
         || Js.message_includes error "network")
  then Js.ret NextEndpoint
  else Js.throw (Js.error errorMessage).

Definition attempt (currentEndpoint : nat) : Js.M Dispatch Step :=
  Js.tryCatch (tryBlock currentEndpoint) (catchBlock currentEndpoint).

(** [sendTransactionWithRetry(contract, method, args, options, maxAttempts,
    currentEndpoint)]: the calls to itself are the only loop. *)
Equations? sendTransactionWithRetry (currentEndpoint : nat) (w : Dispatch)
    : Js.Outcome Receipt * Dispatch
    by wf (endpoints - currentEndpoint)%nat lt :=
  sendTransactionWithRetry currentEndpoint w
    with inspect (attempt currentEndpoint w) := {
    | exist _ (Js.Returned (Finished receipt), w') _ => (Js.Returned receipt, w')
    | exist _ (Js.Returned NextEndpoint, w') _ =>
        sendTransactionWithRetry (currentEndpoint + 1) w'
    | exist _ (Js.Thrown e, w') _ => (Js.Thrown e, w') }.
Proof.
  assert (Hlt : (currentEndpoint + 1 <? endpoints)%nat = true); [|apply Nat.ltb_lt in Hlt; lia].
  revert e. unfold attempt, Js.tryCatch, tryBlock, catchBlock, orNextEndpoint,
    Js.bind, Js.modify, Js.await, Js.throw, Js.ret, Js.gets.
  destruct (currentEndpoint + 1 <? endpoints)%nat; [done|].
  simpl. repeat case_match; simplify_eq; try done.
Qed.

End SendTransactionWithRetry.

(** *** endGame *)

Definition LOCAL_SCORES_KEY : string := "flappySomnia_localScores".

(** [contract.games(gameId)] *)
Record GameInfo := mkGameInfo {
  gi_ended : bool;
  gi_player : string
}.

(** What [endGame] returns. *)
Record EndGameResult := mkResult {
  success : bool;
  hash : option string;
  localOnly : bool;
  resultMessage : option string
}.

(** The places of [endGame] that read the clock. *)
Inductive Site :=
| AtTxId | AtPending | AtSent | AtConfirmed | AtSave
| AtLocalId | AtLocal | AtFallbackSave | AtFallbackId | AtFallback.

(** What the wallet and the chain answer during one [endGame]:
    [getAddress] at the start, [getAddressVerify] inside the verification. *)
Record Env := mkEnv {
  now : Site -> Z;
  switchToSomniaTestnet : Js.Outcome unit;
  getAddress : Js.Outcome string;
  providerFeeData : Js.Outcome (option Z);
  games : Js.Outcome GameInfo;
  getAddressVerify : Js.Outcome string;
  endGameTx : Js.Outcome string;
  endGameWait : WaitOutcome
}.

(** A call [contract.endGame(gameId, finalScore, totalJumps, overrides)]. *)
Record EndGameCall := mkCall {
  call_gameId : Z;
  call_finalScore : Z;
  call_totalJumps : Z;
  call_overrides : Overrides
}.

(** The queue of the hook, [localStorage], the [transactionPending] flag and
    the contract calls made. *)
Record World := mkWorld {
  queue : list QueuedTransaction;
  storage : Storage;
  transactionPending : bool;
  calls : list EndGameCall
}.

Definition addToQueue (tx : QueuedTransaction) (w : World) : World :=
  mkWorld (Queue.addToQueue tx (queue w)) (storage w) (transactionPending w)
          (calls w).

Definition setTransactionPending (b : bool) (w : World) : World :=
  mkWorld (queue w) (storage w) b (calls w).

Definition recordCall (c : EndGameCall) (w : World) : World :=
  mkWorld (queue w) (storage w) (transactionPending w) (calls w ++ [c]).

(** [JSON.parse(localStorage.getItem(key) || '[]')], [[]] when that throws. *)
Definition readLocalScores (s : Storage) : list LocalScore :=
  match s !! LOCAL_SCORES_KEY with
  | Some (ScoresBlob localScores) => localScores
  | _ => []
  end.

(** Push one score and write the list back.  The address that
    [saveScoreLocally] stores is a promise, not a string; the fallback stores
    none. *)
Definition pushLocalScore (gameId finalScore totalJumps at_ : Z) (w : World)
    : World :=
  mkWorld (queue w)
          (<[LOCAL_SCORES_KEY :=
               ScoresBlob (readLocalScores (storage w)
                           ++ [mkLocalScore (Some gameId) None (Some finalScore)
                                            (Some totalJumps) (Some (at_ / 1000))])]>
             (storage w))
          (transactionPending w) (calls w).

(** The message of the inner [catch] for a failure with message [m]. *)
Definition chainFailureMessage (m : string) : string :=
  if Js.includes "CALL_EXCEPTION" m || Js.includes "transaction failed" m
  then "Game score could not be saved on-chain due to contract error, but was recorded locally."
  else if Js.includes "already ended" m
  then "This game was already ended."
  else if Js.includes "only end games" m
  then "You can only end games that you started."
  else if Js.includes "timeout" m
  then "Network response took too long. Your score was recorded locally."
  else if Js.includes "user rejected" m
  then "Transaction was rejected in your wallet. Your score was recorded locally."
  else if Js.includes "insufficient funds" m
  then "Not enough STT tokens to pay for the transaction. Your score was recorded locally."
  else "Failed to save your score on the blockchain, but it was recorded locally.".

Section EndGame.
Open Scope js_scope.

(** [state.contract] and [state.signer] are set. *)
Variable initialized : bool.
Variable env : Env.
Variables (gameId finalScore totalJumps : Z).

Definition endGameData (flag : option bool) (err : option string) : TxData :=
  mkData (Some gameId) (Some finalScore) (Some totalJumps) None None None None
         flag err None.

Definition localRecord (idSite atSite : Site) (userMessage : string)
    : QueuedTransaction :=
  mkTx ("end-local-" +:+ Js.show gameId +:+ "-" +:+ Js.show (now env idSite))
       tx_end (Some confirmed) (now env atSite) None
       (Some (endGameData (Some true) (Some userMessage))) None.

(** Lines 688-708: the best-effort check of the game. *)
Definition verifyGame : Js.M World bool :=
  Js.tryCatch
    (let* gameInfo := Js.await (games env) in
     if gi_ended gameInfo then Js.throw (Js.error "Game has already ended")
     else
       let* playerAddress := Js.await (getAddressVerify env) in
       if negb (String.eqb (Js.toLowerCase (gi_player gameInfo))
                           (Js.toLowerCase playerAddress))
       then Js.throw (Js.error "You can only end games that you started")
       else Js.ret true)
    (fun error =>
       let* ended := Js.message_includes_strict error "already ended" in
       if ended then Js.throw error
       else
         let* wrongPlayer := Js.message_includes_strict error "only end games" in
         if wrongPlayer then Js.throw error else Js.ret false).

(** Lines 746-841: the submission and its [catch]. *)
Definition submit (txId : string) (gasPrice : Z) : Js.M World EndGameResult :=
  Js.tryCatch
    (let* _ := Js.modify (recordCall (mkCall gameId finalScore totalJumps
                 (mkOverrides 5000000 (Some gasPrice) (Some 0) None))) in
     let* txHash := Js.await (endGameTx env) in
     let* _ := Js.modify (addToQueue
                 (mkTx txId tx_end (Some pending) (now env AtSent) (Some txHash)
                       (Some (endGameData None None)) None)) in
     let* receipt := Js.await (race (endGameWait env) "Transaction timeout") in
     let* _ := Js.modify (addToQueue
                 (mkTx txId tx_end (Some confirmed) (now env AtConfirmed)
                       (Some txHash) (Some (endGameData None None)) None)) in
     let* _ := Js.modify (pushLocalScore gameId finalScore totalJumps
                                         (now env AtSave)) in
     Js.ret (mkResult true (Some txHash) false None))
    (fun txError =>
     let* _ := Js.modify (pushLocalScore gameId finalScore totalJumps
                                         (now env AtSave)) in
     match Js.message txError with
     | None => Js.throw Js.TYPE_ERROR
     | Some m =>
         let userMessage := chainFailureMessage m in
         let* _ := Js.modify (addToQueue (localRecord AtLocalId AtLocal userMessage)) in
         Js.throw (Js.error userMessage)
     end).

(** Lines 842-897: the outer [catch]. *)
Definition fallback (error : Js.Error) : Js.M World EndGameResult :=
  let* _ := Js.modify (pushLocalScore gameId finalScore totalJumps
                                      (now env AtFallbackSave)) in
  let userMessage :=
    Wallet.messageOr error
      "Game ended, but score could not be saved on the blockchain." in
  let* _ := Js.modify (addToQueue
              (localRecord AtFallbackId AtFallback userMessage)) in
  Js.ret (mkResult true None true (Some userMessage)).

(** [endGame(gameId, finalScore, totalJumps, jumps)]; [jumps] is not used. *)
Definition endGame : Js.M World EndGameResult :=
  if negb initialized then Js.throw (Js.error "Contract not initialized")
  else
    Js.tryFinally
      (Js.tryCatch
         (let* _ := Js.modify (setTransactionPending true) in
          let* _ := if gameId <=? 0 then Js.throw (Js.error "Invalid game ID")
                    else Js.ret tt in
          let* _ := if finalScore <? 0 then Js.throw (Js.error "Invalid score")
                    else Js.ret tt in
          let* _ := Js.await (switchToSomniaTestnet env) in
          let* _ := Js.await (getAddress env) in
          let txId := "end-" +:+ Js.show gameId +:+ "-"
                      +:+ Js.show (now env AtTxId) in
          let* _ := Js.modify (addToQueue
                      (mkTx txId tx_end (Some pending) (now env AtPending) None
                            (Some (endGameData None None)) None)) in
          let gasPrice :=
            match providerFeeData env with
            | Js.Returned feeData => Wallet.legacyGasPrice feeData
            | Js.Thrown _ => Wallet.DEFAULT_GAS_PRICE
            end in
          let* gameVerified := verifyGame in
          submit txId gasPrice)
         fallback)
      (setTransactionPending false).

End EndGame.

End Contract.

(** * Vocabulary of the statements *)

Module Spec.
Import Queue.

(** [tx], at index [i], is the record an update of [id] applies to: the
    first one with that id. *)
Definition first_with_id (id : string) (q : list QueuedTransaction) (i : nat)
    (tx : QueuedTransaction) : Prop :=
  q !! i = Some tx /\ tx_id tx = id
  /\ forall j t, q !! j = Some t -> (j < i)%nat -> tx_id t <> id.

(** Every property of [tx'] but [status] is that of [u] where [u] has the
    key, and that of [tx] where it has not. *)
Definition merged_but_status (tx : QueuedTransaction) (u : Partial)
    (tx' : QueuedTransaction) : Prop :=
  tx_id tx' = default (tx_id tx) (p_id u)
  /\ tx_type tx' = default (tx_type tx) (p_type u)
  /\ tx_timestamp tx' = default (tx_timestamp tx) (p_timestamp u)
  /\ tx_hash tx' = default (tx_hash tx) (p_hash u)
  /\ tx_data tx' = default (tx_data tx) (p_data u)
  /\ tx_error tx' = default (tx_error tx) (p_error u).

(** The record an update writes at the matched index. *)
Definition updated (u : Partial) (tx : QueuedTransaction) : QueuedTransaction :=
  if bool_decide (p_status (normalize u) = Some (Some pending))
     && bool_decide (tx_status tx = Some confirmed)
  then spread tx (omit_status (normalize u))
  else spread tx (normalize u).

(** After a reconcile the cached flag says whether a record is pending. *)
Definition flag_agrees_after_reconcile (h : Hook) : Prop :=
  isPending (fst (checkAndFixPendingState h))
  = hasPending (queue (fst (checkAndFixPendingState h))).

(** [price] is the fee estimate with the 50% markup, or 20 gwei without an
    estimate. *)
Definition markedUp (fee : option Z) (price : Z) : Prop :=
  match fee with
  | Some estimate => price = (estimate * 150) ÷ 100
  | None => price = 20 * 10 ^ 9
  end.

(** The characters of a formatted amount: digits, the point and the sign. *)
Definition numeric_char (c : Ascii.ascii) : bool :=
  let n := Ascii.N_of_ascii c in
  (((48 <=? n) && (n <=? 57)) || (n =? 46) || (n =? 45))%N.

Fixpoint numeric (s : string) : bool :=
  match s with
  | EmptyString => true
  | String c rest => numeric_char c && numeric rest
  end.

(** The call ends by throwing. *)
Definition surfacesFatal {A} (o : Js.Outcome A) : Prop :=
  exists e, o = Js.Thrown e.




End Spec.

(** * Sample inputs *)

Module Sample.
Import Queue.

(** A confirmed start record. *)
Definition confirmedTx : QueuedTransaction :=
  mkTx "init-1700000000000" tx_start (Some confirmed) 1700000000000 None None
       None.

(** A pending start record. *)
Definition pendingTx : QueuedTransaction :=
  mkTx "init-1700000000000" tx_start (Some pending) 1700000000000 None None
       None.

(** A failed record. *)
Definition failedTx : QueuedTransaction :=
  mkTx "fund-1700000000001" tx_start (Some failed) 1700000000001 None None
       (Some "Unknown error").

(** [{ hash: '0xabc', status: 'pending' }], as [requestFunds] and
    [handleEndGame] pass it. *)
Definition hashAndPending : Partial :=
  mkPartial None None (Some (Some pending)) None (Some (Some "0xabc")) None None.

(** [{ data: { address } }], as [initializeWallet] passes it. *)
Definition dataOnly : Partial :=
  mkPartial None None None None None
    (Some (Some (mkData None None None None None None (Some "0xA11CE") None
                        None None)))
    None.

(** A hook that has just been given a pending record: the queue is updated,
    the effect that recomputes the flag has not run yet. *)
Definition justAdded : Hook := step (mount ∅) (EvAdd pendingTx).

(** An endpoint that answers, for a wallet without funds: the gas price is
    1 gwei, the balance 0. *)
Definition unfunded : Contract.Endpoint :=
  Contract.mkEndpoint (Js.Returned 4242) (Js.Returned 7)
    (Js.Returned (Some 1000000000)) (Js.Returned 0) "0.0"
    (Js.Returned 21000) (Js.Returned "0xabc")
    (Ethers.Mined (Ethers.mkReceipt true (Some "0xabc"))).

Definition freshDispatch : Contract.Dispatch := Contract.mkDispatch [] [] None.

(** A funded wallet on an endpoint that takes the transaction and never
    reports it mined. *)
Definition silent : Contract.Endpoint :=
  Contract.mkEndpoint (Js.Returned 4242) (Js.Returned 7)
    (Js.Returned (Some 1000000000)) (Js.Returned (10 ^ 18)) "1.0"
    (Js.Returned 21000) (Js.Returned "0xabc") Ethers.NeverSettles.

(** A funded wallet on an endpoint that mines the transaction. *)
Definition healthy : Contract.Endpoint :=
  Contract.mkEndpoint (Js.Returned 4242) (Js.Returned 7)
    (Js.Returned (Some 1000000000)) (Js.Returned (10 ^ 18)) "1.0"
    (Js.Returned 21000) (Js.Returned "0xdef")
    (Ethers.Mined (Ethers.mkReceipt true (Some "0xdef"))).

(** An endpoint that does not answer the probe. *)
Definition down : Contract.Endpoint :=
  Contract.mkEndpoint (Js.Thrown (Js.error "could not detect network"))
    (Js.Returned 7) (Js.Returned None) (Js.Returned 0) "0.0" (Js.Returned 0)
    (Js.Returned "") Ethers.NeverSettles.

(** Endpoint 0 is [first], the others are [others]. *)
Definition endpointsOf (first others : Contract.Endpoint) (i : nat)
    : Contract.Endpoint :=
  match i with
  | O => first
  | S _ => others
  end.

(** A chain that answers every step of an [endGame]. *)
Definition answering (games : Js.Outcome Contract.GameInfo)
    (tx : Js.Outcome string) : Contract.Env :=
  Contract.mkEnv (fun _ => 1700000000000) (Js.Returned tt)
    (Js.Returned "0xA11CE") (Js.Returned (Some 1000000000)) games
    (Js.Returned "0xA11CE") tx
    (Ethers.Mined (Ethers.mkReceipt true (Some "0xabc"))).

(** The game is the caller's and still open; the wallet rejects the
    transaction. *)
Definition rejected : Contract.Env :=
  answering (Js.Returned (Contract.mkGameInfo false "0xa11ce"))
            (Js.Thrown (Js.error "user rejected transaction")).


(** The provider does not answer the check of the game; the submission goes
    through. *)
Definition unverifiable : Contract.Env :=
  answering (Js.Thrown (Js.error "could not detect network"))
            (Js.Returned "0xabc").

Definition freshWorld : Contract.World := Contract.mkWorld [] ∅ false [].

(** The leaderboard of the chain: A with 100, B with 80. *)
Definition chainEntries : list LeaderboardEntry :=
  [mkEntry "0xA" 100 1700000000000; mkEntry "0xB" 80 1700000000000].

(** The confirmed end-game record of game 5: C scored 120. *)
Definition endRecord : QueuedTransaction :=
  mkTx "end-5-1700000000000" tx_end (Some confirmed) 1700000000000 None
       (Some (mkData (Some 5) (Some 120) (Some 30) None None None (Some "0xC")
                     None None None))
       None.

(** [localStorage] once the queue hook has saved a queue holding that
    record. *)
Definition persisted : Storage :=
  storage (persistEffect (mkHook [endRecord] false ∅ [])).

End Sample.

(** * More of the code *)

(** ** The unique-user counter of the custodial wallet hook *)

Module Users.

(** The item [flappySomnia_uniqueUsers] of [localStorage] as [JSON.parse]
    gives it: missing or empty; an array, an entry that is not a string being
    [None]; a string; or any other value, a text that [JSON.parse] rejects
    included. *)
Inductive Item :=
| Missing
| Saved (users : list (option string))
| Text (s : string)
| Other.

(** The item and the [uniqueUsers] state of the hook. *)
Record State := mkState {
  item : Item;
  uniqueUsers : nat
}.

(** [updateUniqueUsers].  On a string, [includes] is the substring test and
    [push] throws; on the other values [includes] is no function.  What is
    thrown in the [try] block is only logged. *)
Definition updateUniqueUsers (address : string) (st : State) : State :=
  let addressToAdd := Js.toLowerCase address in
  match item st with
  | Missing => mkState (Saved [Some addressToAdd]) 1
  | Saved users =>
      if bool_decide (Some addressToAdd ∈ users)
      then mkState (Saved users) (length users)
      else mkState (Saved (users ++ [Some addressToAdd]))
                   (length (users ++ [Some addressToAdd]))
  | Text s =>
      if Js.includes addressToAdd s then mkState (Text s) (String.length s)
      else st
  | Other => st
  end.

End Users.

(** ** The jumps of one game *)

Module Jumps.

(** The hook before the first jump. *)
Definition fresh : Wallet.State := Wallet.mkState [] [] 0 [].

(** [addJumpToBatch] called for each jump in turn, each with the time of its
    call, the component having rendered since the jump before. *)
Definition addAll (jumps : list (Z * Wallet.JumpData)) (st : Wallet.State)
    : Wallet.State :=
  foldl (fun st j => Wallet.addJumpToBatch (fst j) (snd j) st) st jumps.

End Jumps.

(** ** Switching the wallet to the network ([config/contract]) *)

Module Network.

Definition CHAIN_ID : string := "0xC488".

(** The requests sent to [window.ethereum]. *)
Inductive Request := EthChainId | SwitchChain | AddChain.

(** How [wallet_switchEthereumChain] ends: [code] is [switchError.code]. *)
Inductive SwitchOutcome :=
| Switched
| SwitchFailed (code : option Z).

(** What the wallet answers: the chain id at the start, after the network
    was added, and at the end ([None] is [null]). *)
Record Env := mkEnv {
  hasEthereum : bool;
  chainIdAtStart : Js.Outcome (option string);
  switchChain : SwitchOutcome;
  addChain : Js.Outcome unit;
  chainIdAfterAdd : Js.Outcome (option string);
  chainIdAtEnd : Js.Outcome (option string)
}.

(** [(chainId?.toString().toLowerCase() || '') === CHAIN_ID.toLowerCase()] *)
Definition onSomnia (chainId : option string) : bool :=
  String.eqb (match chainId with
              | Some c => Js.toLowerCase c
              | None => ""
              end)
             (Js.toLowerCase CHAIN_ID).

Definition request (r : Request) (log : list Request) : list Request :=
  log ++ [r].

Section SwitchToSomniaTestnet.
Open Scope js_scope.
Variable env : Env.

(** The [catch] of the switch request. *)
Definition onSwitchError (code : option Z) : Js.M (list Request) unit :=
  if bool_decide (code = Some 4902) then
    Js.tryCatch
      (let* _ := Js.modify (request AddChain) in
       let* _ := Js.await (addChain env) in
       let* _ := Js.modify (request EthChainId) in
       let* newChainId := Js.await (chainIdAfterAdd env) in
       if negb (onSomnia newChainId)
       then Js.throw (Js.error
              "Please select the Somnia Testnet network in MetaMask")
       else Js.ret tt)
      (fun addError =>
         Js.throw (Js.error
           "Failed to add Somnia Testnet network to MetaMask. Please add it manually."))
  else if bool_decide (code = Some 4001) then
    Js.throw (Js.error "Please approve the network switch request in MetaMask")
  else
    Js.throw (Js.error
      "Failed to switch to Somnia Testnet network. Please try manually switching in MetaMask.").

(** [switchToSomniaTestnet]; its outer [catch] throws the error again. *)
Definition switchToSomniaTestnet : Js.M (list Request) unit :=
  Js.tryCatch
    (if negb (hasEthereum env)
     then Js.throw (Js.error "MetaMask is not installed")
     else
       let* _ := Js.modify (request EthChainId) in
       let* currentChainId := Js.await (chainIdAtStart env) in
       if onSomnia currentChainId then Js.ret tt
       else
         let* _ := Js.modify (request SwitchChain) in
         let* _ := match switchChain env with
                   | Switched => Js.ret tt
                   | SwitchFailed code => onSwitchError code
                   end in
         let* _ := Js.modify (request EthChainId) in
         let* finalChainId := Js.await (chainIdAtEnd env) in
         if negb (onSomnia finalChainId)
         then Js.throw (Js.error
                ("Network switch failed. Current chain: "
                 +:+ default "null" finalChainId
                 +:+ ", expected: " +:+ CHAIN_ID))
         else Js.ret tt)
    (fun error => Js.throw error).

End SwitchToSomniaTestnet.

End Network.

(** ** startGame of the contract hook *)

Module Start.

(** The places of [startGame] that read the clock. *)
Inductive Site :=
| AtTxId | AtPending | AtSent | AtConfirmed.

(** The places that await [state.signer.getAddress()]. *)
Inductive AddressSite :=
| ForLog | ForPending | ForSent | ForConfirmed.

(** How the wait for the receipt ends.  [gameId] is what
    [receipt.events?.find(..)?.args?.gameId.toNumber()] evaluates to:
    [None] for [undefined]. *)
Inductive WaitOutcome :=
| Mined (gameId : Js.Outcome (option Z))
| WaitRejected (e : Js.Error)
| NeverSettles.

Record Env := mkEnv {
  now : Site -> Z;
  hasContract : bool;
  hasSigner : bool;
  switchToSomniaTestnet : Js.Outcome unit;
  getAddress : AddressSite -> Js.Outcome string;
  getFeeData : Js.Outcome (option Z);
  startGameTx : Js.Outcome string;
  startGameWait : WaitOutcome
}.

(** The queue of the hook, the [transactionPending] flag and the number of
    calls [contract.startGame()], which take no argument. *)
Record World := mkWorld {
  queue : list QueuedTransaction;
  transactionPending : bool;
  calls : nat
}.

Definition addToQueue (tx : QueuedTransaction) (w : World) : World :=
  mkWorld (Queue.addToQueue tx (queue w)) (transactionPending w) (calls w).

Definition setTransactionPending (b : bool) (w : World) : World :=
  mkWorld (queue w) b (calls w).

Definition recordCall (w : World) : World :=
  mkWorld (queue w) (transactionPending w) (S (calls w)).

Definition startData (gameId : option Z) (address : string) : TxData :=
  mkData gameId None None None None None (Some address) None None None.

Section StartGame.
Open Scope js_scope.
Variable env : Env.

(** [Promise.race([tx.wait(1), timer])] followed by the reading of the game
    id off the receipt. *)
Definition awaitGameId : Js.M World (option Z) :=
  match startGameWait env with
  | Mined gameId => Js.await gameId
  | WaitRejected e => Js.throw e
  | NeverSettles => Js.throw (Js.error "Transaction timeout")
  end.

(** [startGame()]: the game id it returns. *)
Definition startGame : Js.M World Z :=
  let txId := "start-" +:+ Js.show (now env AtTxId) in
  fun w0 =>
  Js.tryFinally
    (Js.tryCatch
       (if negb (hasContract env)
        then Js.throw (Js.error "Contract not initialized")
        else
          let* _ := Js.await (switchToSomniaTestnet env) in
          if negb (hasSigner env)
          then Js.throw (Js.error "MetaMask not connected")
          else
            let* _ := Js.await (getAddress env ForLog) in
            let* address := Js.await (getAddress env ForPending) in
            let* _ := Js.modify (addToQueue
                        (mkTx txId tx_start (Some pending) (now env AtPending)
                              None (Some (startData None address)) None)) in
            let* feeData := Js.await (getFeeData env) in
            let* _ := Js.modify recordCall in
            let* txHash := Js.await (startGameTx env) in
            let* address := Js.await (getAddress env ForSent) in
            let* _ := Js.modify (addToQueue
                        (mkTx txId tx_start (Some pending) (now env AtSent)
                              (Some txHash) (Some (startData None address))
                              None)) in
            let* gameId := awaitGameId in
            match gameId with
            | Some (Zpos _ as id) | Some (Zneg _ as id) =>
                let* address := Js.await (getAddress env ForConfirmed) in
                let* _ := Js.modify (addToQueue
                            (mkTx txId tx_start (Some confirmed)
                                  (now env AtConfirmed) (Some txHash)
                                  (Some (startData (Some id) address)) None)) in
                Js.ret id
            | _ => Js.throw (Js.error "Failed to get game ID from transaction")
            end)
       (fun error => Js.throw error))
    (setTransactionPending false)
    (setTransactionPending true w0).

End StartGame.

End Start.

(** ** fetchLeaderboard of the leaderboard hook *)

Module Fetch.

Import Leaderboard.

(** What one RPC endpoint answers: the probe, and the games of the
    leaderboard as [getLeaderboardGameIds] and [getGameInfo] give them. *)
Record Endpoint := mkEndpoint {
  getBlockNumber : Js.Outcome Z;
  readGames : Js.Outcome (list LeaderboardEntry)
}.

(** The state of the hook, and [localStorage]. *)
Record State := mkState {
  entries : list LeaderboardEntry;
  loading : bool;
  error : option string;
  isRealData : bool;
  storage : Storage
}.

(** The endpoint gives the leaderboard. *)
Definition answer (ep : Endpoint) : option (list LeaderboardEntry) :=
  match getBlockNumber ep with
  | Js.Thrown _ => None
  | Js.Returned _ =>
      match readGames ep with
      | Js.Thrown _ => None
      | Js.Returned games => Some games
      end
  end.

(** The loop over [RPC_ENDPOINTS]: whether an endpoint answered, and the
    state then. *)
Fixpoint tryEndpoints (now : Z) (endpoints : list Endpoint) (st : State)
    : bool * State :=
  match endpoints with
  | [] => (false, st)
  | ep :: rest =>
      match answer ep with
      | None => tryEndpoints now rest st
      | Some games =>
          let r := fromChain now (storage st) games in
          (true, mkState (fst r) (loading st) (error st) true (snd r))
      end
  end.

(** [fetchLeaderboard], started at [started] and answered at [answered]. *)
Definition fetchLeaderboard (started answered : Z) (endpoints : list Endpoint)
    (st : State) : State :=
  let cached := getFromLocalStorage started LEADERBOARD_CACHE_KEY (storage st) in
  let st1 :=
    match fst cached with
    | Some cachedData =>
        mkState (updateWithLocalScores started (snd cached) cachedData) false
                (error st) (isRealData st) (snd cached)
    | None =>
        mkState (entries st) (loading st) (error st) (isRealData st)
                (snd cached)
    end in
  let tried := tryEndpoints answered endpoints st1 in
  let st2 := snd tried in
  let st3 :=
    if negb (fst tried) && bool_decide (fst cached = None) then
      let localScores := updateWithLocalScores answered (storage st2) [] in
      if (0 <? length localScores)%nat
      then mkState localScores (loading st2) (Some "Using local game data")
                   (isRealData st2) (storage st2)
      else mkState [] (loading st2) (Some "No leaderboard data available")
                   (isRealData st2) (storage st2)
    else st2 in
  mkState (entries st3) false (error st3) (isRealData st3) (storage st3).

End Fetch.

(** ** Vocabulary of the further statements *)

Module More.

(** [{ status: 'confirmed' }] *)
Definition confirming : Partial :=
  mkPartial None None (Some (Some confirmed)) None None None None.

(** The jumps as [addJumpToBatch] stores them. *)
Definition stored (jumps : list (Z * Wallet.JumpData)) : list Wallet.JumpData :=
  map (fun j => Wallet.storedJump (snd j)) jumps.

(** The number of jumps that have left the pending list after [n] jumps. *)
Definition flushed (n : nat) : nat := (10 * (n / 10))%nat.

(** The batch record that the jump after [total] jumps adds at time [now]. *)
Definition batchRecord (now total : Z) : QueuedTransaction :=
  mkTx ("batch-" +:+ Js.show now) tx_jump (Some confirmed) now None
       (Some (mkData None None None (Some 10) (Some ((total + 1) / 10 + 1))
                     (Some (Wallet.ceil_div10 (total + 2))) None None None None))
       None.

(** [tx] is a confirmed batch record of ten jumps that calls itself batch
    [k + 2] of [k + 2]. *)
Definition numbered (k : nat) (tx : QueuedTransaction) : Prop :=
  tx_type tx = tx_jump /\ tx_status tx = Some confirmed
  /\ exists d, tx_data tx = Some d /\ d_jumps d = Some 10
       /\ d_batchNumber d = Some (Z.of_nat k + 2)
       /\ d_totalBatches d = Some (Z.of_nat k + 2).

(** The id that [handleEndGame] gives its records. *)
Definition endId (env : Wallet.Env) (gameId : Z) : string :=
  "end-" +:+ Js.show gameId +:+ "-" +:+ Js.show (Wallet.now env Wallet.AtTxId).

(** The queue of the wallet hook after a [handleEndGame] that was let
    through. *)
Definition queueAfterEnd (env : Wallet.Env) (gameId finalScore : Z)
    (w : Wallet.World) : list QueuedTransaction :=
  Wallet.transactionQueue
    (Wallet.w_state (snd (Wallet.handleEndGame true true env gameId finalScore w))).

(** [a] may stand before [b] in a leaderboard: its score is not lower. *)
Definition higherFirst (a b : LeaderboardEntry) : Prop := e_score b <= e_score a.



(** The first endpoint of the list that gives the leaderboard. *)
Definition firstAnswer (endpoints : list Fetch.Endpoint)
    : option (list LeaderboardEntry) :=
  list_find (fun ep => is_Some (Fetch.answer ep)) endpoints
  ≫= fun iep => Fetch.answer (snd iep).


(** [options.gasLimit] when the transaction is handed over: the estimate
    with its margin, one million when the estimate failed or came out as
    zero. *)
Definition gasLimitFor (ep : Contract.Endpoint) : Z :=
  match Contract.estimateGas ep with
  | Js.Returned gasEstimate =>
      Wallet.or_else (Z.quot (gasEstimate * 150) 100) 1000000
  | Js.Thrown _ => 1000000
  end.

(** [o] is what [sendTransactionWithRetry] hands to an endpoint that answers
    like [ep]: the probe, the nonce, the fee data and the balance came, the
    balance covers the gas price times 500000, and the overrides are those of
    a legacy transaction with that nonce, the marked-up price and the gas
    limit above. *)
Definition submission (ep : Contract.Endpoint) (o : Ethers.Overrides) : Prop :=
  exists block nonce fee balance,
    Contract.getBlockNumber ep = Js.Returned block
    /\ Contract.getTransactionCount ep = Js.Returned nonce
    /\ Contract.getFeeData ep = Js.Returned fee
    /\ Contract.getBalance ep = Js.Returned balance
    /\ Contract.estimatedGasCost (Wallet.legacyGasPrice fee) <= balance
    /\ o = Ethers.mkOverrides (gasLimitFor ep)
             (Some (Wallet.legacyGasPrice fee)) (Some 0) (Some nonce).

(** The messages that [sendTransactionWithRetry] throws. *)
Definition SEND_MESSAGES : list string :=
  ["Not enough STT for gas. Please make sure your wallet has enough STT tokens.";
   "Transaction nonce error. Please try again.";
   "Transaction timed out. Please try again.";
   "Please approve the transaction in MetaMask.";
   "Transaction failed"].

(** An [endGame] gets as far as queueing its pending record: the game id
    and the score are valid, the network switch went through and the signer
    gave its address. *)
Definition announced (env : Contract.Env) (gameId finalScore : Z) : bool :=
  negb (gameId <=? 0) && negb (finalScore <? 0)
  && match Contract.switchToSomniaTestnet env with
     | Js.Returned _ => true
     | Js.Thrown _ => false
     end
  && match Contract.getAddress env with
     | Js.Returned _ => true
     | Js.Thrown _ => false
     end.

(** [tx] is an end record of this game with this score and jump count. *)
Definition endRecordOf (gameId finalScore totalJumps : Z)
    (tx : QueuedTransaction) : Prop :=
  tx_type tx = tx_end
  /\ exists d, tx_data tx = Some d /\ d_gameId d = Some gameId
       /\ d_finalScore d = Some finalScore
       /\ d_totalJumps d = Some totalJumps.


(** [tx] is a pending start record under the id of this [startGame]. *)
Definition pendingStart (env : Start.Env) (tx : QueuedTransaction) : Prop :=
  tx_id tx = "start-" +:+ Js.show (Start.now env Start.AtTxId)
  /\ tx_type tx = tx_start /\ tx_status tx = Some pending.


End More.

(** * Properties *)

(** ** The transaction queue *)

Section QueueFacts.
Import Queue Spec.
Implicit Types (q : list QueuedTransaction) (tx : QueuedTransaction).
Implicit Types (u : Partial) (id : string).

Lemma first_with_id_find id q i tx :
  first_with_id id q i tx <->
  list_find (fun t => tx_id t = id) q = Some (i, tx).
Proof.
  unfold first_with_id. rewrite list_find_Some. naive_solver.
Qed.

Lemma merged_but_status_spread tx u :
  merged_but_status tx u (spread tx u).
Proof. by repeat split. Qed.

Lemma merged_but_status_omit tx u tx' :
  merged_but_status tx (omit_status u) tx' <-> merged_but_status tx u tx'.
Proof. done. Qed.

Lemma merged_but_status_normalize tx u tx' :
  merged_but_status tx (normalize u) tx' <-> merged_but_status tx u tx'.
Proof. done. Qed.

Lemma updateTransaction_found id u q i tx :
  first_with_id id q i tx ->
  updateTransaction id u q = <[i := updated u tx]> q.
Proof.
  intros H%first_with_id_find. unfold updateTransaction, updated.
  rewrite H. by case_match.
Qed.

Lemma updateTransaction_not_found id u q :
  (forall tx, tx ∈ q -> tx_id tx <> id) ->
  updateTransaction id u q = q.
Proof.
  intros H. unfold updateTransaction.
  destruct (list_find _ q) as [[i tx]|] eqn:E; [|done].
  apply list_find_Some in E as (Hi & Hid & _).
  exfalso. eapply H; [|exact Hid]. by eapply list_elem_of_lookup_2.
Qed.

Lemma updateTransaction_cases id u q :
  (updateTransaction id u q = q /\ forall tx, tx ∈ q -> tx_id tx <> id)
  \/ exists i tx, first_with_id id q i tx
                  /\ updateTransaction id u q = <[i := updated u tx]> q.
Proof.
  destruct (list_find (fun t => tx_id t = id) q) as [[i tx]|] eqn:E.
  - right. exists i, tx. apply first_with_id_find in E.
    split; [done|]. by apply updateTransaction_found.
  - left. apply list_find_None in E. rewrite Forall_forall in E.
    split; [|done]. by apply updateTransaction_not_found.
Qed.

Lemma updateTransaction_length id u q :
  length (updateTransaction id u q) = length q.
Proof.
  destruct (updateTransaction_cases id u q) as [[-> _]|(i & tx & _ & ->)];
    [done|]. by rewrite length_insert.
Qed.

Lemma updated_confirmed_not_pending u tx :
  tx_status tx = Some confirmed ->
  tx_status (updated u tx) <> Some pending.
Proof.
  intros Hc. unfold updated. rewrite Hc.
  destruct u as [? ? [[[]|]|] ? ? ? ?]; simpl; rewrite ?Hc; done.
Qed.

Lemma updated_pending_on_confirmed u tx :
  tx_status tx = Some confirmed ->
  p_status u = Some (Some pending) ->
  tx_status (updated u tx) = Some confirmed
  /\ merged_but_status tx u (updated u tx).
Proof.
  intros Hc Hp. unfold updated. simpl. rewrite Hp, Hc. simpl.
  split; [done|]. by repeat split.
Qed.

(** One call never turns a confirmed record into a pending one. *)
Lemma updateTransaction_step id u q i tx :
  q !! i = Some tx ->
  tx_status tx = Some confirmed ->
  exists tx', updateTransaction id u q !! i = Some tx'
              /\ tx_status tx' <> Some pending.
Proof.
  intros Hi Hc.
  destruct (updateTransaction_cases id u q) as [[-> _]|(j & t & Hf & ->)].
  - exists tx. split; [done|]. by rewrite Hc.
  - destruct (decide (j = i)) as [->|Hne].
    + destruct Hf as (Hj & _). assert (t = tx) as -> by congruence.
      exists (updated u tx). split.
      * apply list_lookup_insert_eq. by eapply lookup_lt_Some.
      * by apply updated_confirmed_not_pending.
    + exists tx. split; [by rewrite list_lookup_insert_ne|]. by rewrite Hc.
Qed.

Lemma updateTrace_succ q (calls : list (string * Partial)) k id u before after :
  calls !! k = Some (id, u) ->
  updateTrace q calls !! k = Some before ->
  updateTrace q calls !! S k = Some after ->
  after = updateTransaction id u before.
Proof.
  revert q k. induction calls as [|[id' u'] calls IH]; intros q k Hc Hb Ha.
  - done.
  - destruct k as [|k]; simpl in *.
    + simplify_eq. destruct calls as [|[??] ?]; simpl in Ha; by simplify_eq.
    + eapply IH; eauto.
Qed.

End QueueFacts.

Section QueueClaims.
Import Queue Spec.
Implicit Types (q : list QueuedTransaction) (tx : QueuedTransaction).
Implicit Types (u : Partial) (id : string).

(** C1.  Along every sequence of [updateTransaction] calls, a record that is
    confirmed before a call is not pending after it; and when the call asks
    for ['pending'] on the confirmed record it applies to, that record stays
    confirmed while the other fields of the update are merged into it. *)
Theorem confirmed_never_reverts_to_pending
    q (calls : list (string * Partial)) (k : nat) id u
    (before after : list QueuedTransaction) (i : nat) tx :
  calls !! k = Some (id, u) ->
  updateTrace q calls !! k = Some before ->
  updateTrace q calls !! S k = Some after ->
  before !! i = Some tx ->
  tx_status tx = Some confirmed ->
  exists tx',
    after !! i = Some tx'
    /\ tx_status tx' <> Some pending
    /\ (p_status u = Some (Some pending) ->
        first_with_id id before i tx ->
        tx_status tx' = Some confirmed /\ merged_but_status tx u tx').
Proof.
  intros Hcall Hb Ha Hi Hc.
  rewrite (updateTrace_succ _ _ _ _ _ _ _ Hcall Hb Ha).
  destruct (updateTransaction_step id u before i tx Hi Hc) as (tx' & Hl & Hn).
  exists tx'. split; [done|]. split; [done|]. intros Hp Hf.
  rewrite (updateTransaction_found _ _ _ _ _ Hf) in Hl.
  rewrite list_lookup_insert_eq in Hl by (by eapply lookup_lt_Some).
  simplify_eq. by apply updated_pending_on_confirmed.
Qed.

Lemma confirmed_never_reverts_to_pending_witness :
  exists tx',
    updateTransaction "init-1700000000000" Sample.hashAndPending
                      [Sample.confirmedTx] !! 0%nat = Some tx'
    /\ tx_status tx' <> Some pending
    /\ (p_status Sample.hashAndPending = Some (Some pending) ->
        first_with_id "init-1700000000000" [Sample.confirmedTx] 0
                      Sample.confirmedTx ->
        tx_status tx' = Some confirmed
        /\ merged_but_status Sample.confirmedTx Sample.hashAndPending tx').
Proof.
  apply (confirmed_never_reverts_to_pending
           [Sample.confirmedTx]
           [("init-1700000000000", Sample.hashAndPending)] 0
           "init-1700000000000" Sample.hashAndPending
           [Sample.confirmedTx]
           (updateTransaction "init-1700000000000" Sample.hashAndPending
                              [Sample.confirmedTx])
           0 Sample.confirmedTx); reflexivity.
Defined.

(** The update that is not exported has no such guard. *)
Lemma updateTransactionStatus_can_revert :
  updateTransactionStatus "init-1700000000000" pending None None
                          [Sample.confirmedTx]
  = [Sample.pendingTx].
Proof. reflexivity. Qed.

(** C6, the part the code breaks.  An update without a [status] key -- only
    a hash, or only data -- does not leave the status of the record as it
    was: the normalised update carries [status: undefined], and the spread
    copies it over the record. *)
Theorem updateTransaction_without_status_erases_it id u q (i : nat) tx :
  first_with_id id q i tx ->
  p_status u = None \/ p_status u = Some None ->
  exists tx',
    updateTransaction id u q !! i = Some tx'
    /\ tx_status tx' = None
    /\ merged_but_status tx u tx'.
Proof.
  intros Hf Hs. exists (updated u tx).
  rewrite (updateTransaction_found _ _ _ _ _ Hf).
  destruct Hf as (Hi & _).
  rewrite list_lookup_insert_eq by (by eapply lookup_lt_Some).
  split; [done|].
  assert (p_status (normalize u) = Some None) as Hn
    by (destruct Hs as [Hs|Hs]; simpl; by rewrite Hs).
  unfold updated. case_bool_decide as Hb; [congruence|]. simpl.
  split; [|by repeat split].
  destruct Hs as [Hs|Hs]; by rewrite Hs.
Qed.

Lemma updateTransaction_without_status_erases_it_witness :
  exists tx',
    updateTransaction "init-1700000000000" Sample.dataOnly [Sample.pendingTx]
      !! 0%nat = Some tx'
    /\ tx_status tx' = None
    /\ merged_but_status Sample.pendingTx Sample.dataOnly tx'.
Proof.
  apply (updateTransaction_without_status_erases_it
           "init-1700000000000" Sample.dataOnly [Sample.pendingTx] 0
           Sample.pendingTx).
  - split; [reflexivity|]. split; [reflexivity|]. intros j t _ Hj. lia.
  - left. reflexivity.
Defined.

(** The pending record of [initializeWallet], after its address was attached:
    no status is left, and the queue holds no pending record any more. *)
Lemma updateTransaction_data_only_example :
  updateTransaction "init-1700000000000" Sample.dataOnly [Sample.pendingTx]
  = [mkTx "init-1700000000000" tx_start None 1700000000000 None
          (Some (mkData None None None None None None (Some "0xA11CE") None
                        None None))
          None]
  /\ hasPending [Sample.pendingTx] = true
  /\ hasPending (updateTransaction "init-1700000000000" Sample.dataOnly
                                   [Sample.pendingTx]) = false.
Proof. repeat split. Qed.

(** What an update leaves alone: the other properties of the matched record
    are merged, the other records are untouched, and without a match nothing
    changes. *)
Lemma updateTransaction_frame id u q :
  (forall i tx, first_with_id id q i tx ->
     exists tx', updateTransaction id u q !! i = Some tx'
                 /\ merged_but_status tx u tx')
  /\ (forall i tx j, first_with_id id q i tx -> j <> i ->
        updateTransaction id u q !! j = q !! j)
  /\ (forall j t, q !! j = Some t -> tx_id t <> id ->
        updateTransaction id u q !! j = Some t)
  /\ ((forall t, t ∈ q -> tx_id t <> id) -> updateTransaction id u q = q).
Proof.
  repeat apply conj.
  - intros i tx Hf. exists (updated u tx).
    rewrite (updateTransaction_found _ _ _ _ _ Hf). destruct Hf as (Hi & _).
    rewrite list_lookup_insert_eq by (by eapply lookup_lt_Some).
    split; [done|]. unfold updated. case_match; by repeat split.
  - intros i tx j Hf Hne. rewrite (updateTransaction_found _ _ _ _ _ Hf).
    by rewrite list_lookup_insert_ne.
  - intros j t Hj Hid.
    destruct (updateTransaction_cases id u q) as [[-> _]|(i & tx & Hf & ->)];
      [done|].
    rewrite list_lookup_insert_ne; [done|].
    intros ->. destruct Hf as (Hi & Hid' & _). congruence.
  - apply updateTransaction_not_found.
Qed.

(** C5, as the code has it.  A reconcile leaves the queue as it is, returns
    whether a record is pending, and lowers a flag that is raised without a
    pending record; it never raises the flag. *)
Theorem checkAndFixPendingState_lowers_only (h : Hook) :
  queue (fst (checkAndFixPendingState h)) = queue h
  /\ snd (checkAndFixPendingState h) = hasPending (queue h)
  /\ isPending (fst (checkAndFixPendingState h))
     = isPending h && hasPending (queue h).
Proof.
  unfold checkAndFixPendingState.
  destruct (isPending h) eqn:Ep, (hasPending (queue h)) eqn:Eh; simpl;
    rewrite ?Ep, ?Eh; done.
Qed.

(** A hook whose flag is lowered while a record is pending can be reached,
    and a reconcile leaves the flag lowered there. *)
Lemma reconcile_does_not_raise_flag :
  reachable Sample.justAdded
  /\ isPending Sample.justAdded = false
  /\ hasPending (queue Sample.justAdded) = true
  /\ ~ flag_agrees_after_reconcile Sample.justAdded.
Proof.
  split; [|by vm_compute].
  unfold Sample.justAdded. apply reach_step, reach_mount.
Qed.

(** The flag is recomputed by the effect that follows a change of the
    queue. *)
Lemma persistEffect_flag (h : Hook) :
  isPending (persistEffect h) = hasPending (queue (persistEffect h))
  /\ storage (persistEffect h) !! TRANSACTION_STORAGE_KEY
     = Some (QueueBlob (queue h)).
Proof. split; [done|]. simpl. by rewrite lookup_insert_eq. Qed.

(** C8.  A prune keeps every pending record whatever its age, removes every
    confirmed or failed record older than one hour, keeps the younger ones,
    and adds nothing. *)
Theorem clearOldTransactions_prunes (now : Z) q tx :
  tx ∈ q ->
  (tx_status tx = Some pending -> tx ∈ clearOldTransactions now q)
  /\ (tx_status tx = Some confirmed \/ tx_status tx = Some failed ->
      tx_timestamp tx < now - 3600000 ->
      tx ∉ clearOldTransactions now q)
  /\ (tx_status tx = Some confirmed \/ tx_status tx = Some failed ->
      now - 3600000 < tx_timestamp tx ->
      tx ∈ clearOldTransactions now q)
  /\ sublist (clearOldTransactions now q) q.
Proof.
  intros Hin. unfold clearOldTransactions, ONE_HOUR, is_pending.
  repeat apply conj.
  - intros Hp. apply list_elem_of_In, filter_In. split.
    + by apply list_elem_of_In.
    + rewrite Hp. done.
  - intros Hs Hold [_ Hk]%list_elem_of_In%filter_In.
    apply orb_true_iff in Hk as [Hk|Hk].
    + apply bool_decide_eq_true in Hk. destruct Hs; congruence.
    + apply Z.ltb_lt in Hk. lia.
  - intros _ Hyoung. apply list_elem_of_In, filter_In. split.
    + by apply list_elem_of_In.
    + apply orb_true_iff. right. apply Z.ltb_lt. lia.
  - clear Hin. induction q as [|t q IH]; simpl; [constructor|].
    case_match; by constructor.
Qed.

Lemma clearOldTransactions_prunes_witness :
  (tx_status Sample.failedTx = Some pending ->
   Sample.failedTx ∈ clearOldTransactions 1700003600002
                       [Sample.pendingTx; Sample.failedTx])
  /\ (tx_status Sample.failedTx = Some confirmed
      \/ tx_status Sample.failedTx = Some failed ->
      tx_timestamp Sample.failedTx < 1700003600002 - 3600000 ->
      Sample.failedTx ∉ clearOldTransactions 1700003600002
                          [Sample.pendingTx; Sample.failedTx])
  /\ (tx_status Sample.failedTx = Some confirmed
      \/ tx_status Sample.failedTx = Some failed ->
      1700003600002 - 3600000 < tx_timestamp Sample.failedTx ->
      Sample.failedTx ∈ clearOldTransactions 1700003600002
                          [Sample.pendingTx; Sample.failedTx])
  /\ sublist (clearOldTransactions 1700003600002
                [Sample.pendingTx; Sample.failedTx])
             [Sample.pendingTx; Sample.failedTx].
Proof.
  apply (clearOldTransactions_prunes 1700003600002
           [Sample.pendingTx; Sample.failedTx] Sample.failedTx).
  apply list_elem_of_In. simpl. right. left. reflexivity.
Defined.

(** The prune of the sample queue one hour and two milliseconds later: the
    pending record stays, the failed one goes. *)
Lemma clearOldTransactions_example :
  clearOldTransactions 1700003600002 [Sample.pendingTx; Sample.failedTx]
  = [Sample.pendingTx].
Proof. reflexivity. Qed.

End QueueClaims.

(** ** Asynchronous code: proof steps *)

Ltac js_unfold :=
  unfold Js.tryFinally, Js.tryCatch, Js.bind, Js.modify, Js.await, Js.throw,
    Js.ret, Js.gets, Js.message_includes_strict in *.

(** Case analysis on a scrutinee that holds no other [match]. *)
Ltac inner_case :=
  match goal with
  | |- context [match ?x with _ => _ end] =>
      lazymatch x with
      | context [match _ with _ => _ end] => fail
      | _ => destruct x eqn:?
      end
  end.

(** ** The custodial wallet *)

Section WalletClaims.
Import Wallet Spec.


Lemma lastn_app_short {A} (k : nat) (l batch : list A) :
  (length batch <= k)%nat ->
  exists older, lastn k (l ++ batch) = older ++ batch.
Proof.
  intros Hk. unfold lastn. rewrite length_app.
  exists (drop (length l + length batch - k) l).
  by rewrite drop_app_le by lia.
Qed.

(** C10.  The jump that [addJumpToBatch] stores has the timestamp of the one
    it was given, and its [scoreAtJump] (its [multiplierAtJump]) when that is
    not zero, [1] when it is; the jump is appended to the pending jumps, the
    first ten of which move to the processed ones once there are ten. *)
Theorem addJumpToBatch_zero_recorded_as_one (now : Z) (jumpData : JumpData)
    (st : State) :
  exists jump,
    timestamp jump = timestamp jumpData
    /\ scoreAtJump jump
       = (if scoreAtJump jumpData =? 0 then 1 else scoreAtJump jumpData)
    /\ multiplierAtJump jump
       = (if multiplierAtJump jumpData =? 0 then 1
          else multiplierAtJump jumpData)
    /\ totalJumps (addJumpToBatch now jumpData st) = totalJumps st + 1
    /\ ((pendingJumps (addJumpToBatch now jumpData st)
         = pendingJumps st ++ [jump]
         /\ processedJumps (addJumpToBatch now jumpData st) = processedJumps st)
        \/ exists batch older,
             length batch = 10%nat
             /\ batch ++ pendingJumps (addJumpToBatch now jumpData st)
                = pendingJumps st ++ [jump]
             /\ processedJumps (addJumpToBatch now jumpData st)
                = older ++ batch).
Proof.
  exists (storedJump jumpData). do 3 (split; [done|]).
  unfold addJumpToBatch.
  destruct (10 <=? length (pendingJumps st ++ [storedJump jumpData]))%nat eqn:E;
    simpl; (split; [done|]).
  - right. apply Nat.leb_le in E.
    set (newJumps := pendingJumps st ++ [storedJump jumpData]) in *.
    destruct (lastn_app_short 50 (processedJumps st) (take 10 newJumps))
      as [older Ho]; [rewrite length_take; lia|].
    exists (take 10 newJumps), older.
    split; [rewrite length_take; lia|]. split; [apply take_drop|done].
  - by left.
Qed.

(** A jump at score 0 is stored as a jump at score 1. *)
Lemma addJumpToBatch_example :
  pendingJumps (addJumpToBatch 1700000000000 (mkJump 1700000000 0 1)
                               (mkState [] [] 0 []))
  = [mkJump 1700000000 1 1].
Proof. reflexivity. Qed.


End WalletClaims.

(** ** The contract hook *)

Section ContractClaims.
Import Contract Ethers Spec.

Lemma readLocalScores_insert (s : Storage) l :
  readLocalScores (<[LOCAL_SCORES_KEY := ScoresBlob l]> s) = l.
Proof. unfold readLocalScores. by rewrite lookup_insert_eq. Qed.





(** The same call, step by step: the pending record stays, the score is
    saved twice and two flagged records are added, and the call returns a
    success. *)
Lemma endGame_rejected_example :
  let r := endGame true Sample.rejected 5 120 30 Sample.freshWorld in
  fst r = Js.Returned (mkResult true None true
            (Some "Transaction was rejected in your wallet. Your score was recorded locally."))
  /\ map tx_status (queue (snd r))
     = [Some pending; Some confirmed; Some confirmed]
  /\ map (fun tx => d_localOnly <$> tx_data tx) (queue (snd r))
     = [Some None; Some (Some true); Some (Some true)]
  /\ map ls_score (readLocalScores (storage (snd r))) = [Some 120; Some 120]
  /\ length (calls (snd r)) = 1%nat
  /\ transactionPending (snd r) = false.
Proof. vm_compute. repeat split. Qed.





(** A check that fails for want of a connection does not stop the
    submission: the contract call is made and, here, succeeds.  Each
    [addToQueue] appends, so the two pending records stay beside the
    confirmed one. *)
Lemma endGame_unverifiable_example :
  let r := endGame true Sample.unverifiable 5 120 30 Sample.freshWorld in
  fst r = Js.Returned (mkResult true (Some "0xabc") false None)
  /\ calls (snd r)
     = [mkCall 5 120 30 (mkOverrides 5000000 (Some 1500000000) (Some 0) None)]
  /\ map tx_status (queue (snd r))
     = [Some pending; Some pending; Some confirmed]
  /\ map ls_score (readLocalScores (storage (snd r))) = [Some 120].
Proof. by vm_compute. Qed.

(** With [state.contract] or [state.signer] missing, and only then, the call
    throws. *)
Lemma endGame_throws_only_uninitialized initialized env gameId finalScore
    totalJumps w :
  surfacesFatal (fst (endGame initialized env gameId finalScore totalJumps w))
  <-> initialized = false.
Proof.
  unfold surfacesFatal, endGame, submit, verifyGame, fallback. js_unfold.
  destruct initialized; simpl.
  - split; [|done]. intros [e He]. exfalso. revert He.
    repeat (inner_case; simpl); done.
  - split; [done|]. by eexists.
Qed.

Section Dispatcher.
Variable endpoints : nat.
Variable rpc : nat -> Endpoint.
Variable walletReady : bool.

Lemma sendTransactionWithRetry_unfold cur w :
  sendTransactionWithRetry endpoints rpc walletReady cur w =
  match attempt endpoints rpc walletReady cur w with
  | (Js.Returned (Finished receipt), w') => (Js.Returned receipt, w')
  | (Js.Returned NextEndpoint, w') =>
      sendTransactionWithRetry endpoints rpc walletReady (cur + 1) w'
  | (Js.Thrown e, w') => (Js.Thrown e, w')
  end.
Proof.
  rewrite sendTransactionWithRetry_equation_1.
  generalize (inspect (attempt endpoints rpc walletReady cur w)).
  intros [[[[r|]|e] w'] E].
  - by rewrite sendTransactionWithRetry_clause_1_equation_1, E.
  - by rewrite sendTransactionWithRetry_clause_1_equation_2, E.
  - by rewrite sendTransactionWithRetry_clause_1_equation_3, E.
Qed.



Lemma attempt_caught cur w e w' :
  tryBlock endpoints rpc walletReady cur w = (Js.Thrown e, w') ->
  attempt endpoints rpc walletReady cur w
  = catchBlock endpoints cur e w'.
Proof. intros H. unfold attempt, Js.tryCatch. by rewrite H. Qed.

(** A failure that reads as a timeout or a network problem, with an endpoint
    left: the call goes on with the next endpoint. *)
Lemma timeout_or_network_failure_tries_next cur w e w' :
  tryBlock endpoints rpc walletReady cur w = (Js.Thrown e, w') ->
  Js.message_includes e "timeout" || Js.message_includes e "network" = true ->
  (cur + 1 < endpoints)%nat ->
  sendTransactionWithRetry endpoints rpc walletReady cur w
  = sendTransactionWithRetry endpoints rpc walletReady (cur + 1) w'.
Proof.
  intros Ht Hm Hlt. rewrite sendTransactionWithRetry_unfold.
  rewrite (attempt_caught _ _ _ _ Ht). unfold catchBlock. js_unfold.
  apply Nat.ltb_lt in Hlt. by rewrite Hlt, Hm.
Qed.

(** A failure that reads as neither ends the call. *)
Lemma other_failure_surfaces cur w e w' :
  tryBlock endpoints rpc walletReady cur w = (Js.Thrown e, w') ->
  Js.message_includes e "timeout" || Js.message_includes e "network" = false ->
  sendTransactionWithRetry endpoints rpc walletReady cur w
  = (Js.Thrown (Js.error (specificMessage e)), w').
Proof.
  intros Ht Hm. rewrite sendTransactionWithRetry_unfold.
  rewrite (attempt_caught _ _ _ _ Ht). unfold catchBlock. js_unfold.
  by rewrite Hm, andb_false_r.
Qed.

(** A failed probe, or a failed nonce fetch, with an endpoint left: the next
    endpoint is tried, whatever the failure says. *)
Lemma probe_or_nonce_failure_tries_next cur w :
  walletReady = true ->
  (cur + 1 < endpoints)%nat ->
  (exists e, getBlockNumber (rpc cur) = Js.Thrown e)
  \/ (exists block e, getBlockNumber (rpc cur) = Js.Returned block
                      /\ getTransactionCount (rpc cur) = Js.Thrown e) ->
  sendTransactionWithRetry endpoints rpc walletReady cur w
  = sendTransactionWithRetry endpoints rpc walletReady (cur + 1)
      (logAttempt cur w).
Proof.
  intros Hw Hlt%Nat.ltb_lt Hfail. rewrite sendTransactionWithRetry_unfold.
  unfold attempt, tryBlock, orNextEndpoint. js_unfold. simpl. rewrite Hw. simpl.
  destruct Hfail as [[e He]|(block & e & Hb & He)].
  - by rewrite He, Hlt.
  - by rewrite Hb, He, Hlt.
Qed.

Lemma includes_past_numeric c needle s rest :
  numeric s = true -> numeric_char c = false ->
  Js.includes (String c needle) (s +:+ rest)
  = Js.includes (String c needle) rest.
Proof.
  intros Hs Hc. induction s as [|a s IH]; [done|].
  simpl in Hs. apply andb_true_iff in Hs as [Ha Hs].
  change (String a s +:+ rest) with (String a (s +:+ rest)).
  cbn [Js.includes String.prefix].
  destruct (Ascii.ascii_dec c a) as [->|_]; [congruence|].
  simpl. by apply IH.
Qed.

(** The message of the balance check holds none of the words the [catch]
    block looks for: it starts with a capital. *)
Lemma insufficient_funds_message_keywords fb :
  numeric fb = true ->
  let e := Js.error ("Insufficient funds. Need at least " +:+ fb
                     +:+ " STT for gas.") in
  Js.message_includes e "insufficient funds" = false
  /\ Js.message_includes e "nonce" = false
  /\ Js.message_includes e "timeout" = false
  /\ Js.message_includes e "user rejected" = false
  /\ Js.message_includes e "network" = false.
Proof.
  intros Hfb. unfold Js.message_includes, Js.error. simpl Js.message. cbv zeta.
  assert (Hskip : forall needle X,
            needle ∈ ["insufficient funds"; "nonce"; "timeout";
                      "user rejected"; "network"] ->
            Js.includes needle ("Insufficient funds. Need at least " +:+ X)
            = Js.includes needle X).
  { intros needle X Hin. repeat (apply elem_of_cons in Hin as [->|Hin]);
      [vm_compute; reflexivity ..|by apply elem_of_nil in Hin]. }
  repeat split.
  all: rewrite Hskip by (apply list_elem_of_In; simpl; tauto).
  all: by rewrite includes_past_numeric.
Qed.

(** C7, the part the code breaks.  With a balance below the gas price times
    500000, the call ends at once: no other endpoint is tried and nothing is
    submitted.  But the error it ends with is the generic
    ['Transaction failed'], not one that tells of insufficient funds. *)
Theorem insufficient_balance_fails_at_once_generically
    cur w block nonce fee balance :
  walletReady = true ->
  getBlockNumber (rpc cur) = Js.Returned block ->
  getTransactionCount (rpc cur) = Js.Returned nonce ->
  getFeeData (rpc cur) = Js.Returned fee ->
  getBalance (rpc cur) = Js.Returned balance ->
  (exists price, markedUp fee price /\ balance < price * 500000) ->
  numeric (formattedBalance (rpc cur)) = true ->
  sendTransactionWithRetry endpoints rpc walletReady cur w
  = (Js.Thrown (Js.error "Transaction failed"),
     mkDispatch (attempted w ++ [cur]) (submitted w) (gasLimit w))
  /\ Js.message_includes (Js.error "Transaction failed") "insufficient funds"
     = false.
Proof.
  intros Hw Hb Hn Hf Hbal (price & Hprice & Hlt) Hnum. split; [|done].
  assert (price = Wallet.legacyGasPrice fee) as ->
    by (destruct fee; simpl in *; by subst).
  destruct (insufficient_funds_message_keywords _ Hnum)
    as (K1 & K2 & K3 & K4 & K5).
  rewrite sendTransactionWithRetry_unfold.
  unfold attempt, tryBlock, catchBlock, specificMessage, estimatedGasCost.
  js_unfold. simpl.
  rewrite Hw, Hb, Hn, Hf, Hbal. simpl.
  apply Z.ltb_lt in Hlt. rewrite Hlt. simpl.
  rewrite K1, K2, K3, K4, K5. simpl. rewrite andb_false_r. done.
Qed.

End Dispatcher.

Lemma insufficient_balance_fails_at_once_generically_witness :
  sendTransactionWithRetry 2 (fun _ => Sample.unfunded) true 0
                           Sample.freshDispatch
  = (Js.Thrown (Js.error "Transaction failed"),
     mkDispatch (attempted Sample.freshDispatch ++ [0%nat])
                (submitted Sample.freshDispatch)
                (gasLimit Sample.freshDispatch))
  /\ Js.message_includes (Js.error "Transaction failed") "insufficient funds"
     = false.
Proof.
  apply (insufficient_balance_fails_at_once_generically
           2 (fun _ => Sample.unfunded) true 0 Sample.freshDispatch
           4242 7 (Some 1000000000) 0);
    try reflexivity.
  exists 1500000000. split; [reflexivity|lia].
Defined.

(** A timeout on the first of two endpoints: the transaction is submitted
    again on the second, and its receipt is returned. *)
Lemma sendTransactionWithRetry_timeout_example :
  let r := sendTransactionWithRetry 2
             (Sample.endpointsOf Sample.silent Sample.healthy) true 0
             Sample.freshDispatch in
  fst r = Js.Returned (mkReceipt true (Some "0xdef"))
  /\ attempted (snd r) = [0; 1]%nat
  /\ map fst (submitted (snd r)) = [0; 1]%nat
  /\ map (fun io => o_gasPrice (snd io)) (submitted (snd r))
     = [Some 1500000000; Some 1500000000]
  /\ map (fun io => o_gasLimit (snd io)) (submitted (snd r)) = [31500; 31500].
Proof. by vm_compute. Qed.

(** No endpoint answers the probe: each one is tried once, and the call
    ends with the generic message. *)
Lemma sendTransactionWithRetry_all_down_example :
  sendTransactionWithRetry 3 (fun _ => Sample.down) true 0 Sample.freshDispatch
  = (Js.Thrown (Js.error "Transaction failed"),
     mkDispatch [0; 1; 2]%nat [] None).
Proof. by vm_compute. Qed.


(** A gas price of 1 gwei is submitted as 1.5 gwei, a missing one as
    20 gwei. *)
Lemma legacyGasPrice_examples :
  Wallet.legacyGasPrice (Some 1000000000) = 1500000000
  /\ Wallet.legacyGasPrice (Some 7) = 10
  /\ Wallet.legacyGasPrice None = 20000000000.
Proof. repeat split. Qed.

End ContractClaims.

(** ** The leaderboard *)

Section LeaderboardClaims.
Import Leaderboard.

(** What the queue hook saves and what [endGame] saves are kept under keys
    that the leaderboard never reads. *)
Lemma updateWithLocalScores_ignores_written_keys
    (now : Z) (s : Storage) q scores cur :
  updateWithLocalScores now
    (<[Queue.TRANSACTION_STORAGE_KEY := QueueBlob q]>
       (<[Contract.LOCAL_SCORES_KEY := ScoresBlob scores]> s)) cur
  = updateWithLocalScores now s cur.
Proof.
  unfold updateWithLocalScores, queueEntries, localScoreEntries.
  by rewrite !lookup_insert_ne by done.
Qed.

(** C3, where the code breaks it.  The queue hook has saved a queue that
    holds the confirmed end-game record of game 5 (C, 120), and the chain
    lists A with 100 and B with 80: the leaderboard shows A and B only.  Had
    the record been under the key that the leaderboard reads, C would lead. *)
Theorem leaderboard_misses_persisted_queue :
  Sample.persisted !! Queue.TRANSACTION_STORAGE_KEY
  = Some (QueueBlob [Sample.endRecord])
  /\ fst (fromChain 1700000060000 Sample.persisted Sample.chainEntries)
     = [mkEntry "0xA" 100 1700000000000; mkEntry "0xB" 80 1700000000000]
  /\ fst (fromChain 1700000060000
            (<[QUEUE_KEY_READ := QueueBlob [Sample.endRecord]]> ∅)
            Sample.chainEntries)
     = [mkEntry "0xC" 120 1700000000;
        mkEntry "0xA" 100 1700000000000; mkEntry "0xB" 80 1700000000000].
Proof. by vm_compute. Qed.

(** The scores that a failed [endGame] saves do not reach the leaderboard
    either. *)
Lemma leaderboard_misses_local_scores :
  let w := snd (Contract.endGame true Sample.rejected 5 120 30
                                 Sample.freshWorld) in
  map ls_score (Contract.readLocalScores (Contract.storage w))
  = [Some 120; Some 120]
  /\ fst (fromChain 1700000060000 (Contract.storage w) Sample.chainEntries)
     = Sample.chainEntries.
Proof. by vm_compute. Qed.

(** The merge itself, on the keys it reads: one entry per game id, with the
    highest score seen for it, and the entries of the scores item. *)
Lemma updateWithLocalScores_example :
  updateWithLocalScores 1700000060000
    (<[QUEUE_KEY_READ :=
         QueueBlob [Sample.endRecord;
                    mkTx "end-5-1700000000001" tx_end (Some confirmed)
                         1700000001000 None
                         (Some (mkData (Some 5) (Some 90) None None None None
                                       None None None None)) None;
                    Sample.pendingTx]]>
       (<[SCORES_KEY_READ :=
            ScoresBlob [mkLocalScore (Some 6) None (Some 110) None None]]> ∅))
    Sample.chainEntries
  = [mkEntry "0xC" 120 1700000000;
     mkEntry "local_player" 110 1700000060;
     mkEntry "0xA" 100 1700000000000; mkEntry "0xB" 80 1700000000000].
Proof. by vm_compute. Qed.

End LeaderboardClaims.

(** * Further properties *)

(** ** More of the transaction queue *)

Section QueueMore.
Import Queue Spec.
Implicit Types (q : list QueuedTransaction) (tx : QueuedTransaction).
Implicit Types (u : Partial) (id : string) (h : Hook).

Lemma hasPending_true q :
  hasPending q = true
  <-> exists i tx, q !! i = Some tx /\ tx_status tx = Some pending.
Proof.
  unfold hasPending. rewrite existsb_exists. split.
  - intros (tx & Hin & Hp). apply list_elem_of_In, list_elem_of_lookup in Hin.
    destruct Hin as [i Hi]. exists i, tx. split; [done|].
    by apply bool_decide_eq_true in Hp.
  - intros (i & tx & Hi & Hp). exists tx. split.
    + apply list_elem_of_In. by eapply list_elem_of_lookup_2.
    + by apply bool_decide_eq_true.
Qed.

(** X1.  What the hook saves is what the next mount starts from: after the
    save effect or [forceSave] a mount restores the queue and recomputes the
    flag from it.  [clearQueue] removes the item, but the save effect that
    follows the state change writes an empty queue back; either way the next
    mount starts empty and idle. *)
Theorem saved_queue_is_restored_on_mount h :
  mount (storage (persistEffect h))
  = mkHook (queue h) (hasPending (queue h)) (storage (persistEffect h)) []
  /\ mount (storage (forceSave h))
     = mkHook (queue h) (hasPending (queue h)) (storage (forceSave h)) []
  /\ storage (clearQueue h) !! TRANSACTION_STORAGE_KEY = None
  /\ mount (storage (clearQueue h)) = mkHook [] false (storage (clearQueue h)) []
  /\ storage (persistEffect (clearQueue h)) !! TRANSACTION_STORAGE_KEY
     = Some (QueueBlob [])
  /\ mount (storage (persistEffect (clearQueue h)))
     = mkHook [] false (storage (persistEffect (clearQueue h))) [].
Proof.
  unfold mount, loadEffect, persistEffect, forceSave, clearQueue. simpl.
  by rewrite !lookup_insert_eq, lookup_delete_eq.
Qed.

(** X2.  [addToQueue] never merges: a record added under an id that the queue
    already holds is a second record, and an [updateTransaction] for that id
    changes the older record only; the added one is reached only when no
    older record has its id. *)
Theorem update_after_add_reaches_the_oldest_record tx u q :
  ((exists old, old ∈ q /\ tx_id old = tx_id tx) ->
   updateTransaction (tx_id tx) u (addToQueue tx q)
   = addToQueue tx (updateTransaction (tx_id tx) u q))
  /\ ((forall old, old ∈ q -> tx_id old <> tx_id tx) ->
      updateTransaction (tx_id tx) u (addToQueue tx q)
      = addToQueue (updated u tx) q).
Proof.
  unfold addToQueue. split.
  - intros (old & Hin & Hid).
    destruct (list_find_elem_of (fun t => tx_id t = tx_id tx) q old Hin Hid)
      as [[i t] Hf].
    pose proof (list_find_app_l _ _ [tx] _ _ Hf) as Hf'.
    rewrite (updateTransaction_found _ _ _ i t) by (by apply first_with_id_find).
    rewrite (updateTransaction_found _ _ _ i t) by (by apply first_with_id_find).
    apply list_find_Some in Hf as (Hi & _).
    apply insert_app_l. by eapply lookup_lt_Some.
  - intros Hnone.
    rewrite (updateTransaction_found _ _ _ (length q) tx).
    + replace (length q) with (length q + 0)%nat at 1 by lia.
      by rewrite insert_app_r.
    + split; [|split; [done|]].
      * by rewrite lookup_app_r, Nat.sub_diag by lia.
      * intros j t Hj Hlt. rewrite lookup_app_l in Hj by done.
        apply Hnone. by eapply list_elem_of_lookup_2.
Qed.

Lemma update_after_add_reaches_the_oldest_record_witness :
  updateTransaction (tx_id Sample.confirmedTx) Sample.hashAndPending
    (addToQueue Sample.confirmedTx [Sample.pendingTx])
  = addToQueue Sample.confirmedTx
      (updateTransaction (tx_id Sample.confirmedTx) Sample.hashAndPending
         [Sample.pendingTx]).
Proof.
  apply (proj1 (update_after_add_reaches_the_oldest_record
                  Sample.confirmedTx Sample.hashAndPending [Sample.pendingTx])).
  exists Sample.pendingTx. split; [apply list_elem_of_singleton|]; reflexivity.
Defined.

Lemma filter_idem {A} (f : A -> bool) (l : list A) :
  List.filter f (List.filter f l) = List.filter f l.
Proof.
  induction l as [|a l IH]; [done|]. simpl.
  destruct (f a) eqn:E; simpl; rewrite ?E, IH; done.
Qed.

(** X3.  [clearOldTransactions] never changes whether a record is pending,
    pending records are kept however old they are, a second run at the same
    time removes nothing more, and a run followed by a later run leaves what
    the later run alone leaves. *)
Theorem clearOldTransactions_flag_and_repeat (now later : Z) q :
  hasPending (clearOldTransactions now q) = hasPending q
  /\ List.filter is_pending (clearOldTransactions now q)
     = List.filter is_pending q
  /\ clearOldTransactions now (clearOldTransactions now q)
     = clearOldTransactions now q
  /\ (now <= later ->
      clearOldTransactions later (clearOldTransactions now q)
      = clearOldTransactions later q).
Proof.
  unfold clearOldTransactions, hasPending. repeat apply conj.
  - induction q as [|t q IH]; [done|]. simpl.
    destruct (is_pending t) eqn:E; simpl; [by rewrite E|].
    case_match; simpl; by rewrite ?E, IH.
  - induction q as [|t q IH]; [done|]. simpl.
    destruct (is_pending t) eqn:E; simpl; [by rewrite E, IH|].
    case_match; simpl; by rewrite ?E, IH.
  - apply filter_idem.
  - intros Hle. induction q as [|t q IH]; [done|]. simpl.
    destruct (is_pending t) eqn:E; simpl; [by rewrite E, IH|].
    destruct (now - ONE_HOUR <? tx_timestamp t) eqn:E1; simpl.
    + by rewrite E, IH.
    + rewrite IH. destruct (later - ONE_HOUR <? tx_timestamp t) eqn:E2; [|done].
      apply Z.ltb_lt in E2. apply Z.ltb_ge in E1. lia.
Qed.

Lemma clearOldTransactions_flag_and_repeat_witness :
  clearOldTransactions 1700003600002
    (clearOldTransactions 1700003600001 [Sample.pendingTx; Sample.failedTx])
  = clearOldTransactions 1700003600002 [Sample.pendingTx; Sample.failedTx].
Proof.
  apply (proj2 (proj2 (proj2 (clearOldTransactions_flag_and_repeat
           1700003600001 1700003600002 [Sample.pendingTx; Sample.failedTx])))).
  lia.
Defined.

Lemma default_twice {A} (a : A) (o : option A) :
  default (default a o) o = default a o.
Proof. by destruct o. Qed.

Lemma updated_idem u tx :
  updated u (updated u tx) = updated u tx.
Proof.
  destruct tx as [i t s ts h d e], u as [ui ut us uts uh ud ue].
  unfold updated, spread.
  destruct s as [[]|], us as [[[]|]|]; cbn -[default].
  all: repeat (first [rewrite bool_decide_eq_true_2 by done
                     |rewrite bool_decide_eq_false_2 by done];
               cbn -[default]).
  all: by rewrite !default_twice.
Qed.

(** X4.  An update that does not rename the record can be repeated: the
    second call changes nothing. *)
Theorem updateTransaction_twice id u q :
  p_id u = None \/ p_id u = Some id ->
  updateTransaction id u (updateTransaction id u q) = updateTransaction id u q.
Proof.
  intros Hid.
  destruct (updateTransaction_cases id u q) as [[Heq _]|(i & tx & Hf & ->)];
    [by rewrite !Heq|].
  assert (first_with_id id (<[i := updated u tx]> q) i (updated u tx)) as Hf'.
  { destruct Hf as (Hi & Hid' & Hbefore). split; [|split].
    - apply list_lookup_insert_eq. by eapply lookup_lt_Some.
    - assert (tx_id (updated u tx) = default (tx_id tx) (p_id u)) as ->
        by (unfold updated; by case_match).
      destruct Hid as [Hx|Hx]; rewrite Hx; done.
    - intros j t Hj Hlt. rewrite list_lookup_insert_ne in Hj by lia. eauto. }
  rewrite (updateTransaction_found _ _ _ _ _ Hf').
  rewrite list_insert_insert_eq. by rewrite updated_idem.
Qed.

Lemma updateTransaction_twice_witness :
  updateTransaction "init-1700000000000" Sample.hashAndPending
    (updateTransaction "init-1700000000000" Sample.hashAndPending
       [Sample.pendingTx])
  = updateTransaction "init-1700000000000" Sample.hashAndPending
      [Sample.pendingTx].
Proof.
  apply (updateTransaction_twice "init-1700000000000" Sample.hashAndPending
           [Sample.pendingTx]).
  left. reflexivity.
Defined.

(** X5.  The save that a confirming [updateTransaction] schedules writes the
    queue of that moment.  A record added before the timer fires is saved by
    the save effect and then overwritten: the item holds the queue without
    it, and a mount at that point does not get the record back. *)
Theorem scheduled_save_overwrites_a_later_record id u tx h :
  schedulesSave id u (queue h) = true ->
  timers h = [] ->
  queue (persistEffect (setQueue (addToQueue tx) (callUpdate id u h)))
  = updateTransaction id u (queue h) ++ [tx]
  /\ queue (mount (storage (persistEffect
                              (setQueue (addToQueue tx) (callUpdate id u h)))))
     = updateTransaction id u (queue h) ++ [tx]
  /\ queue (mount (storage (fireTimer
                              (persistEffect
                                 (setQueue (addToQueue tx)
                                           (callUpdate id u h))))))
     = updateTransaction id u (queue h).
Proof.
  intros Hs Ht. unfold callUpdate, setQueue, persistEffect, fireTimer, mount,
    loadEffect, addToQueue. simpl. rewrite Hs, Ht. simpl.
  by rewrite !lookup_insert_eq.
Qed.

Lemma scheduled_save_overwrites_a_later_record_witness :
  queue (mount (storage (fireTimer
                           (persistEffect
                              (setQueue (addToQueue Sample.failedTx)
                                 (callUpdate "init-1700000000000" More.confirming
                                    (mkHook [Sample.pendingTx] true ∅ [])))))))
  = updateTransaction "init-1700000000000" More.confirming [Sample.pendingTx].
Proof.
  apply (proj2 (proj2 (scheduled_save_overwrites_a_later_record
           "init-1700000000000" More.confirming Sample.failedTx
           (mkHook [Sample.pendingTx] true ∅ []) eq_refl eq_refl))).
Defined.

End QueueMore.

(** ** More of the custodial wallet *)

Section WalletMore.
Import Wallet Spec More.

Lemma lastn_lastn_app {A} (m : nat) (x y : list A) :
  lastn m (lastn m x ++ y) = lastn m (x ++ y).
Proof.
  unfold lastn. rewrite !length_app, length_drop.
  destruct (decide (length x <= m)%nat) as [Hle|Hgt].
  - replace (length x - m)%nat with 0%nat by lia. simpl.
    by replace (length x - 0)%nat with (length x) by lia.
  - replace (length x - (length x - m) + length y - m)%nat
      with (length y)%nat by lia.
    replace (length x + length y - m)%nat
      with ((length x - m) + length y)%nat by lia.
    rewrite <- drop_drop. by rewrite (drop_app_le x) by lia.
Qed.

Local Arguments Nat.div _ _ : simpl never.
Local Arguments Nat.modulo _ _ : simpl never.
Local Arguments flushed _ : simpl never.

Lemma flushed_step (n : nat) :
  ((n mod 10 = 9 /\ flushed (S n) = S n /\ flushed n + 9 = n
    /\ S n / 10 = S (n / 10))
   \/ (n mod 10 < 9 /\ flushed (S n) = flushed n /\ S n / 10 = n / 10
       /\ flushed n <= n /\ n - flushed n = n mod 10))%nat.
Proof.
  unfold flushed.
  pose proof (Nat.div_mod_eq n 10). pose proof (Nat.mod_upper_bound n 10).
  pose proof (Nat.div_mod_eq (S n) 10).
  pose proof (Nat.mod_upper_bound (S n) 10).
  destruct (decide (n mod 10 = 9)%nat) as [E|E].
  - left. assert (S n / 10 = S (n / 10))%nat by
      (symmetry; apply (Nat.div_unique (S n) 10 (S (n / 10)) 0); lia).
    lia.
  - right. assert (S n / 10 = n / 10)%nat by
      (symmetry; apply (Nat.div_unique (S n) 10 (n / 10) (S (n mod 10))); lia).
    lia.
Qed.

Lemma addJumpToBatch_keep now j st :
  (length (pendingJumps st) < 9)%nat ->
  addJumpToBatch now j st
  = mkState (pendingJumps st ++ [storedJump j]) (processedJumps st)
            (totalJumps st + 1) (transactionQueue st).
Proof.
  intros Hlt. unfold addJumpToBatch.
  assert ((10 <=? length (pendingJumps st ++ [storedJump j]))%nat = false) as ->;
    [|done].
  apply Nat.leb_gt. rewrite length_app. simpl. lia.
Qed.

Lemma addJumpToBatch_flush now j st :
  length (pendingJumps st) = 9%nat ->
  addJumpToBatch now j st
  = mkState [] (lastn 50 (processedJumps st ++ pendingJumps st ++ [storedJump j]))
            (totalJumps st + 1)
            (transactionQueue st ++ [batchRecord now (totalJumps st)]).
Proof.
  intros Hlen. unfold addJumpToBatch.
  assert (length (pendingJumps st ++ [storedJump j]) = 10%nat) as Hl
    by (rewrite length_app; simpl; lia).
  assert ((10 <=? length (pendingJumps st ++ [storedJump j]))%nat = true) as ->
    by (apply Nat.leb_le; lia).
  rewrite take_ge, drop_ge by lia. by rewrite Hl.
Qed.

(** The state after the jumps of a game, from the state before the first. *)
Lemma addAll_invariant (jumps : list (Z * JumpData)) :
  pendingJumps (Jumps.addAll jumps Jumps.fresh)
  = drop (flushed (length jumps)) (stored jumps)
  /\ processedJumps (Jumps.addAll jumps Jumps.fresh)
     = lastn 50 (take (flushed (length jumps)) (stored jumps))
  /\ totalJumps (Jumps.addAll jumps Jumps.fresh) = Z.of_nat (length jumps)
  /\ length (transactionQueue (Jumps.addAll jumps Jumps.fresh))
     = (length jumps / 10)%nat
  /\ (forall k tx,
        transactionQueue (Jumps.addAll jumps Jumps.fresh) !! k = Some tx ->
        numbered k tx).
Proof.
  induction jumps as [|j jumps IH] using rev_ind.
  - repeat split; done.
  - destruct IH as (Hp & Hpr & Ht & Hq & Hn).
    unfold Jumps.addAll in *. rewrite foldl_app.
    cbn [foldl]. set (st := foldl _ Jumps.fresh jumps) in *.
    unfold stored in *. rewrite map_app, length_app.
    cbn [map length]. set (a := map _ jumps) in *.
    assert (length a = length jumps) as Hla by (unfold a; by rewrite length_map).
    replace (length jumps + 1)%nat with (S (length jumps)) by lia.
    assert (length (pendingJumps st) = length jumps - flushed (length jumps))%nat
      as Hlp by (by rewrite Hp, length_drop, Hla).
    destruct (flushed_step (length jumps))
      as [(Hm & Hf & Hf9 & Hd)|(Hm & Hf & Hd & Hle & Hsub)].
    + rewrite addJumpToBatch_flush by lia. cbn [pendingJumps processedJumps
        totalJumps transactionQueue]. rewrite Hf, Hd. repeat apply conj.
      * rewrite drop_ge; [done|]. rewrite length_app, Hla. simpl. lia.
      * rewrite Hpr, Hp, lastn_lastn_app, app_assoc, take_drop.
        rewrite take_ge; [done|]. rewrite length_app, Hla. simpl. lia.
      * lia.
      * rewrite length_app, Hq. simpl. lia.
      * intros k tx Hk.
        apply lookup_app_Some in Hk as [Hk|[Hge Hk]]; [by apply Hn|].
        rewrite Hq in *.
        destruct (k - length jumps / 10)%nat as [|?] eqn:Ek; [|done].
        simpl in Hk. injection Hk as <-.
        assert (k = (length jumps / 10)%nat) as -> by lia.
        split; [done|]. split; [done|]. eexists. split; [done|].
        cbn [batchRecord d_jumps d_batchNumber d_totalBatches].
        assert (Z.of_nat (length jumps)
                = 10 * Z.of_nat (length jumps / 10) + 9) as Hz.
        { unfold flushed in Hf9. lia. }
        split; [done|]. unfold ceil_div10. rewrite Ht, Hz. split; f_equal.
        -- replace (10 * Z.of_nat (length jumps / 10) + 9 + 1)
             with ((Z.of_nat (length jumps / 10) + 1) * 10) by lia.
           rewrite Z.div_mul by lia. lia.
        -- replace (- (10 * Z.of_nat (length jumps / 10) + 9 + 2))
             with (9 + (- (Z.of_nat (length jumps / 10) + 2)) * 10) by lia.
           rewrite Z.div_add by lia. change (9 / 10) with 0. lia.
    + rewrite addJumpToBatch_keep by lia. cbn [pendingJumps processedJumps
        totalJumps transactionQueue]. rewrite Hf, Hd. repeat apply conj.
      * rewrite Hp, drop_app_le; [done|lia].
      * rewrite Hpr, take_app_le; [done|lia].
      * lia.
      * done.
      * done.
Qed.

(** X6.  After the jumps of a game, each handed to [addJumpToBatch] in turn
    from the state before the first jump: the count is the number of jumps;
    the jumps that came after the last full ten are pending, fewer than ten
    of them; the processed jumps are the last fifty of the jumps in full
    tens; and the queue holds one record per full ten. *)
Theorem jumps_are_batched_by_ten (jumps : list (Z * JumpData)) :
  totalJumps (Jumps.addAll jumps Jumps.fresh) = Z.of_nat (length jumps)
  /\ pendingJumps (Jumps.addAll jumps Jumps.fresh)
     = drop (flushed (length jumps)) (stored jumps)
  /\ length (pendingJumps (Jumps.addAll jumps Jumps.fresh))
     = (length jumps mod 10)%nat
  /\ processedJumps (Jumps.addAll jumps Jumps.fresh)
     = lastn 50 (take (flushed (length jumps)) (stored jumps))
  /\ length (transactionQueue (Jumps.addAll jumps Jumps.fresh))
     = (length jumps / 10)%nat.
Proof.
  destruct (addAll_invariant jumps) as (Hp & Hpr & Ht & Hq & _).
  repeat apply conj; try done.
  rewrite Hp, length_drop. unfold stored. rewrite length_map. unfold flushed.
  pose proof (Nat.div_mod_eq (length jumps) 10). lia.
Qed.

(** X7.  The batch records of a game are all confirmed records of ten jumps,
    and the one at position [k] of the queue (from 0) has batch number
    [k + 2] and total [k + 2]: the numbering starts at two, and no record
    numbers itself below the total. *)
Theorem jump_batches_are_numbered_from_two (jumps : list (Z * JumpData))
    (k : nat) :
  match transactionQueue (Jumps.addAll jumps Jumps.fresh) !! k with
  | Some tx => (k < length jumps / 10)%nat /\ numbered k tx
  | None => (length jumps / 10 <= k)%nat
  end.
Proof.
  destruct (addAll_invariant jumps) as (_ & _ & _ & Hq & Hn).
  destruct (_ !! k) as [tx|] eqn:E.
  - split; [|by apply Hn]. apply lookup_lt_Some in E. lia.
  - apply lookup_ge_None in E. lia.
Qed.

(** An update that asks for ['pending'] leaves a pending record pending. *)
Lemma updated_pending_stays u tx :
  p_status u = Some (Some pending) ->
  tx_status tx = Some pending ->
  tx_status (updated u tx) = Some pending.
Proof.
  intros Hu Hp. unfold updated.
  rewrite (bool_decide_eq_false_2 (tx_status tx = Some confirmed))
    by (by rewrite Hp).
  rewrite andb_false_r. simpl. by rewrite Hu.
Qed.

(** The record that [handleEndGame] adds first, after the update that
    follows the submission. *)
Lemma pending_record_after_update id (h : string) tx q :
  tx_id tx = id -> tx_status tx = Some pending ->
  exists tx',
    Queue.updateTransaction id
      (mkPartial None None (Some (Some pending)) None (Some (Some h)) None None)
      (Queue.addToQueue tx q) !! length q = Some tx'
    /\ tx_id tx' = id /\ tx_type tx' = tx_type tx
    /\ tx_status tx' = Some pending.
Proof.
  intros Hid Hp. unfold Queue.addToQueue.
  set (u := mkPartial _ _ _ _ _ _ _).
  destruct (updateTransaction_cases id u (q ++ [tx]))
    as [[-> _]|(i & t & Hf & ->)].
  - exists tx. by rewrite lookup_app_r, Nat.sub_diag by lia.
  - destruct (decide (i = length q)) as [->|Hne].
    + destruct Hf as (Hi & _).
      rewrite lookup_app_r, Nat.sub_diag in Hi by lia. injection Hi as <-.
      exists (updated u tx). split.
      * apply list_lookup_insert_eq. rewrite length_app. simpl. lia.
      * split; [unfold updated; by case_match|].
        split; [unfold updated; by case_match|].
        by apply updated_pending_stays.
    + exists tx. rewrite list_lookup_insert_ne by done.
      by rewrite lookup_app_r, Nat.sub_diag by lia.
Qed.

(** The record that [handleEndGame] queues first, at the end of the call. *)
Lemma handleEndGame_first_record env gameId finalScore w :
  exists tx,
    queueAfterEnd env gameId finalScore w
      !! length (transactionQueue (w_state w)) = Some tx
    /\ tx_id tx = endId env gameId /\ tx_type tx = tx_end
    /\ tx_status tx = Some pending.
Proof.
  unfold queueAfterEnd, endId, handleEndGame. js_unfold. simpl.
  set (id := "end-" +:+ Js.show gameId +:+ "-" +:+ Js.show (now env AtTxId)).
  set (q := transactionQueue (w_state w)).
  set (first := mkTx id tx_end (Some pending) (now env AtPending) None _ None).
  assert (Hfirst : forall more,
            ((q ++ [first]) ++ more) !! length q = Some first).
  { intros more. rewrite <- app_assoc.
    by rewrite lookup_app_r, Nat.sub_diag by lia. }
  destruct (getFeeData env) as [fee|e]; simpl.
  2: { exists first. unfold Queue.addToQueue. by rewrite Hfirst. }
  destruct (endGameTx env) as [h|e]; simpl.
  2: { exists first. unfold Queue.addToQueue. by rewrite Hfirst. }
  destruct (pending_record_after_update id h first q eq_refl eq_refl)
    as (tx' & Hl & Hid & Hty & Hst).
  destruct (Ethers.race (waitTx env) _) as [receipt|e]; simpl.
  all: exists tx'; unfold Queue.addToQueue at 1.
  all: by rewrite (lookup_app_l_Some _ _ _ _ Hl).
Qed.

(** X8.  A [handleEndGame] that is let through clears the jumps of the game
    whatever happens, and never settles the pending record it started with:
    the record it added first still has the id of the call and the status
    ['pending'] when the call ends, whether it returned or threw. *)
Theorem handleEndGame_leaves_its_record_pending env gameId finalScore w :
  pendingJumps (w_state (snd (handleEndGame true true env gameId finalScore w)))
  = []
  /\ processedJumps
       (w_state (snd (handleEndGame true true env gameId finalScore w))) = []
  /\ totalJumps
       (w_state (snd (handleEndGame true true env gameId finalScore w))) = 0
  /\ exists tx,
       queueAfterEnd env gameId finalScore w
         !! length (transactionQueue (w_state w)) = Some tx
       /\ tx_id tx = endId env gameId /\ tx_type tx = tx_end
       /\ tx_status tx = Some pending.
Proof.
  assert (Hcleared :
            let st := w_state (snd (handleEndGame true true env gameId
                                                  finalScore w)) in
            pendingJumps st = [] /\ processedJumps st = []
            /\ totalJumps st = 0).
  { unfold handleEndGame. js_unfold. simpl.
    destruct (getFeeData env) as [fee|e]; simpl; [|done].
    destruct (endGameTx env) as [h|e]; simpl; [|done].
    by destruct (Ethers.race (waitTx env) _). }
  destruct Hcleared as (Hp & Hd & Ht).
  repeat (split; [done|]). apply handleEndGame_first_record.
Qed.

Lemma queueAfterEnd_hasPending env gameId finalScore w :
  Queue.hasPending (queueAfterEnd env gameId finalScore w) = true.
Proof.
  destruct (handleEndGame_first_record env gameId finalScore w)
    as (tx & Hl & _ & _ & Hp).
  apply hasPending_true. eauto.
Qed.

(** X9.  After a [handleEndGame] that was let through, returned or thrown,
    the queue of the hook counts as pending, and stays so through
    [clearOldTransactions]; once the save effect has recomputed the flag,
    [canProcessTransaction] refuses, and the next [handleEndGame] throws
    without adding a record or calling the contract. *)
Theorem handleEndGame_blocks_the_next_one
    env gameId finalScore w (at_ : Z) flag s ts env' gameId' finalScore' w' :
  Queue.hasPending (queueAfterEnd env gameId finalScore w) = true
  /\ Queue.hasPending
       (Queue.clearOldTransactions at_ (queueAfterEnd env gameId finalScore w))
     = true
  /\ Queue.canProcessTransaction "end"
       (Queue.persistEffect
          (Queue.mkHook (queueAfterEnd env gameId finalScore w) flag s ts))
     = false
  /\ handleEndGame true
       (Queue.canProcessTransaction "end"
          (Queue.persistEffect
             (Queue.mkHook (queueAfterEnd env gameId finalScore w) flag s ts)))
       env' gameId' finalScore' w'
     = (Js.Thrown (Js.error
          "A transaction is already in progress. Please wait for it to complete."),
        w').
Proof.
  pose proof (queueAfterEnd_hasPending env gameId finalScore w) as Hp.
  assert (Queue.hasPending
            (Queue.clearOldTransactions at_
               (queueAfterEnd env gameId finalScore w)) = true) as Hc.
  { apply hasPending_true in Hp as (i & tx & Hi & Hs).
    unfold Queue.hasPending. apply existsb_exists. exists tx. split.
    - unfold Queue.clearOldTransactions. apply filter_In. split.
      + apply list_elem_of_In. by eapply list_elem_of_lookup_2.
      + unfold Queue.is_pending. by rewrite bool_decide_eq_true_2.
    - unfold Queue.is_pending. by rewrite bool_decide_eq_true_2. }
  unfold Queue.canProcessTransaction, Queue.persistEffect. simpl.
  rewrite Hp. done.
Qed.

(** X10.  [handleEndGame] returns only when the fee data came, the contract
    call was accepted and the wait was answered with a receipt; the last
    record of the queue is then a confirmed end record with the hash of the
    receipt.  Otherwise it throws the clearer message of the failure, and
    the last record of the queue is a failed end record with the message of
    the failure. *)
Theorem handleEndGame_returns_only_when_mined env gameId finalScore w :
  match fst (handleEndGame true true env gameId finalScore w) with
  | Js.Returned receipt =>
      exists fee txHash mined,
        getFeeData env = Js.Returned fee
        /\ endGameTx env = Js.Returned txHash
        /\ waitTx env = Ethers.Mined mined
        /\ receipt = mkEndGameReceipt gameId finalScore
                       (totalJumps (w_state w)) (Ethers.r_hash mined)
        /\ exists tx,
             last (queueAfterEnd env gameId finalScore w) = Some tx
             /\ tx_id tx = endId env gameId
             /\ tx_type tx = tx_end /\ tx_status tx = Some confirmed
             /\ tx_hash tx = Ethers.r_hash mined
  | Js.Thrown e =>
      exists cause tx,
        e = Js.error (clearerMessage cause)
        /\ (getFeeData env = Js.Thrown cause
            \/ endGameTx env = Js.Thrown cause
            \/ waitTx env = Ethers.WaitRejected cause
            \/ (waitTx env = Ethers.NeverSettles
                /\ cause = Js.error "Transaction timeout after 60s"))
        /\ last (queueAfterEnd env gameId finalScore w) = Some tx
        /\ tx_id tx = endId env gameId
        /\ tx_type tx = tx_end /\ tx_status tx = Some failed
        /\ tx_error tx = Some (messageOr cause "Unknown error")
  end.
Proof.
  unfold queueAfterEnd, endId, handleEndGame. js_unfold. simpl.
  destruct (getFeeData env) as [fee|e]; simpl.
  2: { exists e. eexists. split; [done|]. split; [by left|].
       unfold Queue.addToQueue. rewrite last_snoc. done. }
  destruct (endGameTx env) as [h|e]; simpl.
  2: { exists e. eexists. split; [done|]. split; [by right; left|].
       unfold Queue.addToQueue. rewrite last_snoc. done. }
  destruct (waitTx env) as [mined|e|]; simpl.
  - exists fee, h, mined. repeat split. eexists. unfold Queue.addToQueue at 1.
    rewrite last_snoc. done.
  - exists e. eexists. split; [done|]. split; [by right; right; left|].
    unfold Queue.addToQueue at 1. rewrite last_snoc. done.
  - eexists (Js.error _). eexists. split; [done|].
    split; [by right; right; right|].
    unfold Queue.addToQueue at 1. rewrite last_snoc. done.
Qed.

(** X11.  Without a wallet, or while [canProcessTransaction] refuses,
    [handleEndGame] throws at once: no record is added, no contract call is
    made and the jumps of the game are kept. *)
Theorem handleEndGame_refused_changes_nothing
    walletReady canProcess env gameId finalScore w :
  walletReady && canProcess = false ->
  handleEndGame walletReady canProcess env gameId finalScore w
  = (Js.Thrown (Js.error
       (if walletReady
        then "A transaction is already in progress. Please wait for it to complete."
        else "Wallet not initialized")), w).
Proof. unfold handleEndGame. js_unfold. by destruct walletReady, canProcess. Qed.

Lemma handleEndGame_refused_changes_nothing_witness :
  handleEndGame true false
    (mkEnv (fun _ => 1700000000000) (Js.Returned None) (Js.Returned "0xabc")
           Ethers.NeverSettles)
    5 120 (mkWorld Jumps.fresh [])
  = (Js.Thrown (Js.error
       "A transaction is already in progress. Please wait for it to complete."),
     mkWorld Jumps.fresh []).
Proof.
  apply (handleEndGame_refused_changes_nothing true false
           (mkEnv (fun _ => 1700000000000) (Js.Returned None)
                  (Js.Returned "0xabc") Ethers.NeverSettles)
           5 120 (mkWorld Jumps.fresh [])).
  reflexivity.
Defined.

End WalletMore.

(** ** The unique-user counter *)

Section UsersMore.
Import Users.

(** X12.  [updateUniqueUsers] counts an address once, whatever its case:
    when the item is an array or missing, the lower-cased address is in the
    saved array afterwards, the count shown is the length of that array, an
    array without repeats stays so, and a second call with the same address
    in any case changes nothing more.  An item that is no array is never
    rewritten. *)
Theorem updateUniqueUsers_counts_each_address_once address other st :
  match item (updateUniqueUsers address st) with
  | Saved users =>
      Some (Js.toLowerCase address) ∈ users
      /\ uniqueUsers (updateUniqueUsers address st) = length users
      /\ (forall before, item st = Saved before ->
           NoDup before -> NoDup users)
  | Missing => False
  | Text s => item st = Text s
  | Other => updateUniqueUsers address st = st
  end
  /\ (Js.toLowerCase other = Js.toLowerCase address ->
      updateUniqueUsers other (updateUniqueUsers address st)
      = updateUniqueUsers address st).
Proof.
  unfold updateUniqueUsers. split.
  - destruct (item st) as [|users|s|] eqn:E; simpl.
    + split; [by apply list_elem_of_singleton|]. split; [done|].
      intros ? [=].
    + case_bool_decide as Hin; simpl.
      * split; [done|]. split; [done|]. by intros ? [= <-].
      * split; [apply elem_of_app; right; by apply list_elem_of_singleton|].
        split; [done|]. intros ? [= <-] Hnd.
        apply NoDup_app. split; [done|]. split; [|apply NoDup_singleton].
        intros x Hx ->%list_elem_of_singleton. done.
    + destruct (Js.includes _ s); simpl; by rewrite ?E.
    + by rewrite E.
  - intros ->. destruct (item st) as [|users|s|] eqn:E; simpl.
    + rewrite bool_decide_eq_true_2; [done|]. by apply list_elem_of_singleton.
    + case_bool_decide as Hin; simpl.
      * by rewrite bool_decide_eq_true_2.
      * rewrite bool_decide_eq_true_2; [done|].
        apply elem_of_app; right; by apply list_elem_of_singleton.
    + destruct (Js.includes _ s) eqn:Ei; simpl; by rewrite ?E, ?Ei.
    + by rewrite E.
Qed.

Lemma updateUniqueUsers_counts_each_address_once_witness :
  updateUniqueUsers "0XA11CE" (updateUniqueUsers "0xa11ce" (mkState Missing 0))
  = updateUniqueUsers "0xa11ce" (mkState Missing 0).
Proof.
  apply (proj2 (updateUniqueUsers_counts_each_address_once
                  "0xa11ce" "0XA11CE" (mkState Missing 0))).
  reflexivity.
Defined.

End UsersMore.

(** ** More of the leaderboard *)

Section LeaderboardMore.
Import Leaderboard More.

(** X13.  What [saveToLocalStorage] wrote, [getFromLocalStorage] gives back
    as long as no more than five minutes have passed; after that it gives
    nothing and removes the item. *)
Theorem leaderboard_cache_round_trip (now later : Z) key data (s : Storage) :
  getFromLocalStorage later key (saveToLocalStorage now key data s)
  = if MAX_AGE <? later - now then (None, delete key s)
    else (Some data, saveToLocalStorage now key data s).
Proof.
  unfold getFromLocalStorage, saveToLocalStorage.
  rewrite lookup_insert_eq. case_match; [|done]. by rewrite delete_insert_eq.
Qed.

Lemma insertByScore_perm e l : insertByScore e l ≡ₚ e :: l.
Proof.
  induction l as [|x l IH]; [done|]. simpl. case_match; [|done].
  rewrite IH. apply Permutation_swap.
Qed.

Lemma sortByScore_perm l : sortByScore l ≡ₚ l.
Proof.
  induction l as [|x l IH]; [done|]. unfold sortByScore in *. simpl.
  by rewrite insertByScore_perm, IH.
Qed.

Lemma insertByScore_sorted e l :
  StronglySorted higherFirst l -> StronglySorted higherFirst (insertByScore e l).
Proof.
  induction 1 as [|x l Hs IH Hall]; simpl.
  - repeat constructor.
  - destruct (e_score e <? e_score x) eqn:E.
    + constructor; [done|].
      apply Forall_forall. intros y Hy.
      rewrite insertByScore_perm in Hy.
      apply elem_of_cons in Hy as [->|Hy].
      * apply Z.ltb_lt in E. unfold higherFirst. lia.
      * rewrite Forall_forall in Hall. by apply Hall.
    + apply Z.ltb_ge in E. constructor; [by constructor|].
      constructor; [done|].
      eapply Forall_impl; [exact Hall|]. unfold higherFirst. intros; lia.
Qed.

Lemma sortByScore_sorted l : StronglySorted higherFirst (sortByScore l).
Proof.
  induction l as [|x l IH]; [constructor|].
  unfold sortByScore in *. simpl. by apply insertByScore_sorted.
Qed.

(** X14.  What [updateWithLocalScores] returns is a top ten of the entries it
    was given and the entries of the two items: at most ten entries, highest
    score first, taken from those entries without inventing or repeating
    one; entries are left out only when ten are shown, and none of those
    left out has a higher score than one that is shown. *)
Theorem updateWithLocalScores_is_the_top_ten (now : Z) (s : Storage) cur :
  (length (updateWithLocalScores now s cur) <= 10)%nat
  /\ StronglySorted higherFirst (updateWithLocalScores now s cur)
  /\ exists rest,
       updateWithLocalScores now s cur ++ rest
       ≡ₚ cur ++ queueEntries s ++ localScoreEntries now s
       /\ (rest <> [] -> length (updateWithLocalScores now s cur) = 10%nat)
       /\ Forall (fun x => Forall (fun y => e_score x <= e_score y)
                                   (updateWithLocalScores now s cur)) rest.
Proof.
  unfold updateWithLocalScores.
  set (merged := cur ++ queueEntries s ++ localScoreEntries now s).
  pose proof (sortByScore_sorted merged) as Hs.
  pose proof (sortByScore_perm merged) as Hp.
  set (sorted := sortByScore merged) in *.
  split; [rewrite length_take; lia|]. split.
  - rewrite <- (take_drop 10 sorted) in Hs.
    by apply StronglySorted_app_1_l in Hs.
  - exists (drop 10 sorted). rewrite take_drop. split; [done|]. split.
    + intros Hne. rewrite length_take.
      destruct (decide (length sorted <= 10)%nat); [|lia].
      rewrite drop_ge in Hne by lia. done.
    + rewrite <- (take_drop 10 sorted) in Hs.
      apply Forall_forall. intros x Hx. apply Forall_forall. intros y Hy.
      exact (StronglySorted_app_1_elem_of _ _ _ _ _ Hs Hy Hx).
Qed.

(** *** One entry per game *)
















(** *** fetchLeaderboard *)

Import Fetch.

Lemma tryEndpoints_firstAnswer now endpoints st :
  tryEndpoints now endpoints st
  = match firstAnswer endpoints with
    | Some games =>
        (true, mkState (fst (fromChain now (storage st) games)) (loading st)
                       (error st) true (snd (fromChain now (storage st) games)))
    | None => (false, st)
    end.
Proof.
  unfold firstAnswer. induction endpoints as [|ep endpoints IH]; [done|].
  simpl. destruct (answer ep) as [games|] eqn:E.
  - rewrite decide_True by eauto. simpl. by rewrite E.
  - rewrite decide_False by (by intros [? ?]). rewrite IH.
    by destruct (list_find _ endpoints) as [[i x]|].
Qed.

(** X17.  A [fetchLeaderboard] always ends with the loading flag down.  When
    an endpoint gives the leaderboard, the first one that does decides what
    is shown, the data counts as real, and the error message is left as it
    was.  When none does and the cache is fresh, the cached entries merged
    with the local ones are shown and the error message is left as it was.
    When none does and there is no fresh cache, the local entries are shown
    with the message ['Using local game data'], or nothing with
    ['No leaderboard data available']. *)
Theorem fetchLeaderboard_outcome (started answered : Z)
    (endpoints : list Endpoint) (st : State) :
  loading (fetchLeaderboard started answered endpoints st) = false
  /\ match firstAnswer endpoints,
           fst (getFromLocalStorage started LEADERBOARD_CACHE_KEY (storage st))
     with
     | Some games, _ =>
         entries (fetchLeaderboard started answered endpoints st)
         = fst (fromChain answered
                  (snd (getFromLocalStorage started LEADERBOARD_CACHE_KEY
                                            (storage st))) games)
         /\ isRealData (fetchLeaderboard started answered endpoints st) = true
         /\ error (fetchLeaderboard started answered endpoints st) = error st
     | None, Some cachedData =>
         entries (fetchLeaderboard started answered endpoints st)
         = updateWithLocalScores started (storage st) cachedData
         /\ isRealData (fetchLeaderboard started answered endpoints st)
            = isRealData st
         /\ error (fetchLeaderboard started answered endpoints st) = error st
         /\ storage (fetchLeaderboard started answered endpoints st)
            = storage st
     | None, None =>
         entries (fetchLeaderboard started answered endpoints st)
         = updateWithLocalScores answered
             (snd (getFromLocalStorage started LEADERBOARD_CACHE_KEY
                                       (storage st))) []
         /\ isRealData (fetchLeaderboard started answered endpoints st)
            = isRealData st
         /\ error (fetchLeaderboard started answered endpoints st)
            = Some (if bool_decide
                         (entries (fetchLeaderboard started answered endpoints st)
                          = [])
                    then "No leaderboard data available"
                    else "Using local game data")
     end.
Proof.
  unfold fetchLeaderboard. split; [done|].
  rewrite tryEndpoints_firstAnswer.
  destruct (firstAnswer endpoints) as [games|] eqn:Ef.
  - destruct (getFromLocalStorage started LEADERBOARD_CACHE_KEY (storage st))
      as [[cachedData|] s'] eqn:Ec; simpl; done.
  - destruct (getFromLocalStorage started LEADERBOARD_CACHE_KEY (storage st))
      as [[cachedData|] s'] eqn:Ec; simpl.
    + assert (s' = storage st) as ->; [|done].
      unfold getFromLocalStorage in Ec.
      destruct (storage st !! LEADERBOARD_CACHE_KEY) as [[| |data savedAt|]|];
        try by simplify_eq.
      destruct (MAX_AGE <? started - savedAt); by simplify_eq.
    + destruct (updateWithLocalScores answered s' []) as [|e l] eqn:El; simpl.
      * done.
      * done.
Qed.

End LeaderboardMore.

(** ** More of the contract hook *)

(** The equation of [sendTransactionWithRetry], under a name that the
    definitions of the module do not hide. *)
Lemma send_unfold endpoints rpc walletReady cur w :
  Contract.sendTransactionWithRetry endpoints rpc walletReady cur w =
  match Contract.attempt endpoints rpc walletReady cur w with
  | (Js.Returned (Contract.Finished receipt), w') => (Js.Returned receipt, w')
  | (Js.Returned Contract.NextEndpoint, w') =>
      Contract.sendTransactionWithRetry endpoints rpc walletReady (cur + 1) w'
  | (Js.Thrown e, w') => (Js.Thrown e, w')
  end.
Proof. apply sendTransactionWithRetry_unfold. Qed.

Lemma specificMessage_known e : Contract.specificMessage e ∈ More.SEND_MESSAGES.
Proof.
  unfold Contract.specificMessage, More.SEND_MESSAGES.
  repeat case_match; apply list_elem_of_In; simpl; tauto.
Qed.

Lemma gasLimitFor_nonzero ep : More.gasLimitFor ep <> 0.
Proof.
  unfold More.gasLimitFor, Wallet.or_else. destruct (Contract.estimateGas ep); [|done].
  destruct (_ =? 0) eqn:E; [done|]. by apply Z.eqb_neq in E.
Qed.

Section SendMore.
Import Contract Ethers Spec More.
Variable endpoints : nat.
Variable rpc : nat -> Endpoint.
Variable walletReady : bool.

(** What one attempt does. *)
Lemma attempt_result cur w :
  attempted (snd (attempt endpoints rpc walletReady cur w))
  = attempted w ++ [cur]
  /\ (submitted (snd (attempt endpoints rpc walletReady cur w)) = submitted w
      \/ exists o,
           submission (rpc cur) o
           /\ submitted (snd (attempt endpoints rpc walletReady cur w))
              = submitted w ++ [(cur, o)])
  /\ match fst (attempt endpoints rpc walletReady cur w) with
     | Js.Returned (Finished receipt) =>
         r_status receipt = true /\ waitTx (rpc cur) = Mined receipt
         /\ exists o,
              submitted (snd (attempt endpoints rpc walletReady cur w))
              = submitted w ++ [(cur, o)]
     | Js.Returned NextEndpoint => (cur + 1 < endpoints)%nat
     | Js.Thrown e => exists cause, e = Js.error (specificMessage cause)
     end.
Proof.
  unfold attempt, tryBlock, catchBlock, orNextEndpoint. js_unfold. simpl.
  assert (Hsub : forall block nonce fee balance limit,
            getBlockNumber (rpc cur) = Js.Returned block ->
            getTransactionCount (rpc cur) = Js.Returned nonce ->
            getFeeData (rpc cur) = Js.Returned fee ->
            getBalance (rpc cur) = Js.Returned balance ->
            (balance <? estimatedGasCost (Wallet.legacyGasPrice fee)) = false ->
            limit = gasLimitFor (rpc cur) ->
            submission (rpc cur)
              (mkOverrides limit (Some (Wallet.legacyGasPrice fee)) (Some 0)
                           (Some nonce))).
  { intros block nonce fee balance limit Hb Hn Hf Hbal Hle ->.
    exists block, nonce, fee, balance. apply Z.ltb_ge in Hle. done. }
  destruct (cur + 1 <? endpoints)%nat eqn:Hlt.
  - apply Nat.ltb_lt in Hlt.
    repeat (inner_case; simpl); (split; [done|]); split.
    all: try (by left).
    all: try (right; eexists; split; [|reflexivity];
              eapply Hsub; eauto; unfold gasLimitFor;
              match goal with H : estimateGas _ = _ |- _ => by rewrite H end).
    all: try done.
    all: try (by eexists).
    all: unfold race in *; repeat case_match; simplify_eq/=;
      repeat split; eauto.
    all: by apply negb_false_iff.
  - repeat (inner_case; simpl); (split; [done|]); split.
    all: try (by left).
    all: try (right; eexists; split; [|reflexivity];
              eapply Hsub; eauto; unfold gasLimitFor;
              match goal with H : estimateGas _ = _ |- _ => by rewrite H end).
    all: try done.
    all: try (by eexists).
    all: unfold race in *; repeat case_match; simplify_eq/=;
      repeat split; eauto.
    all: by apply negb_false_iff.
Qed.

Lemma sendTransactionWithRetry_invariant cur w :
  exists k added,
    attempted (snd (sendTransactionWithRetry endpoints rpc walletReady cur w))
    = attempted w ++ seq cur (S k)
    /\ (k = 0%nat \/ (cur + k < endpoints)%nat)
    /\ submitted (snd (sendTransactionWithRetry endpoints rpc walletReady cur w))
       = submitted w ++ added
    /\ map fst added `sublist_of` seq cur (S k)
    /\ Forall (fun io => submission (rpc (fst io)) (snd io)) added
    /\ match fst (sendTransactionWithRetry endpoints rpc walletReady cur w) with
       | Js.Returned receipt =>
           r_status receipt = true
           /\ waitTx (rpc (cur + k)) = Mined receipt
           /\ exists o, last added = Some ((cur + k)%nat, o)
       | Js.Thrown e => exists cause, e = Js.error (specificMessage cause)
       end.
Proof.
  remember (endpoints - cur)%nat as m eqn:Hm.
  revert cur w Hm. induction (lt_wf m) as [m _ IH]. intros cur w ->.
  remember (sendTransactionWithRetry endpoints rpc walletReady cur w) as r eqn:Er.
  rewrite send_unfold in Er.
  destruct (attempt_result cur w) as (Ha & Hs & Hr).
  assert (Hone : exists first,
            submitted (snd (attempt endpoints rpc walletReady cur w))
            = submitted w ++ first
            /\ Forall (fun io => submission (rpc (fst io)) (snd io)) first
            /\ (first = [] \/ exists o, first = [(cur, o)])).
  { destruct Hs as [Hs|(o & Ho & Hs)].
    - exists []. rewrite app_nil_r. split; [done|]. split; [done|by left].
    - exists [(cur, o)]. split; [done|].
      split; [by apply Forall_singleton|right; by exists o]. }
  destruct Hone as (first & Hs' & Hgood & Hshape).
  destruct (attempt endpoints rpc walletReady cur w) as [[[receipt|]|e] w'];
    subst r; simpl in *.
  - destruct Hr as (Hst & Hw & o & Ho).
    exists 0%nat, [(cur, o)]. rewrite Nat.add_0_r. simpl.
    split; [done|]. split; [by left|]. split; [done|]. split; [done|].
    split; [|by eauto].
    rewrite Hs' in Ho. apply app_inv_head in Ho. by subst.
  - destruct (IH (endpoints - (cur + 1))%nat ltac:(lia) (cur + 1)%nat w' eq_refl)
      as (k & more & Hk & Hbound & Hm & Hsub & Hall & Hout).
    exists (S k), (first ++ more).
    split; [rewrite Hk, Ha, <- app_assoc; simpl; by rewrite Nat.add_1_r|].
    split; [right; lia|].
    split; [by rewrite Hm, Hs', app_assoc|].
    split.
    { rewrite map_app. change (seq cur (S (S k))) with (cur :: seq (S cur) (S k)).
      rewrite Nat.add_1_r in Hsub.
      destruct Hshape as [->|[o ->]]; simpl;
        [by apply sublist_cons|by apply sublist_skip]. }
    split; [by apply Forall_app|].
    replace (cur + S k)%nat with (cur + 1 + k)%nat by lia.
    destruct (fst (sendTransactionWithRetry endpoints rpc walletReady
                                            (cur + 1) w')); [|done].
    destruct Hout as (Hst & Hw & o & Ho). split; [done|]. split; [done|].
    exists o. by rewrite last_app, Ho.
  - exists 0%nat, first. simpl.
    split; [done|]. split; [by left|]. split; [done|]. split; [|done].
    destruct Hshape as [->|[o ->]]; simpl;
      [by apply sublist_cons|by apply sublist_skip].
Qed.

(** X18.  The endpoints that a [sendTransactionWithRetry] tries are
    consecutive, starting with the one it was called for: none is tried
    twice and none after the last of [RPC_ENDPOINTS].  Each endpoint tried
    is handed at most one transaction, in the order of the tries. *)
Theorem sendTransactionWithRetry_tries_each_endpoint_once cur w :
  exists k added,
    attempted (snd (sendTransactionWithRetry endpoints rpc walletReady cur w))
    = attempted w ++ seq cur (S k)
    /\ (k = 0%nat \/ (cur + k < endpoints)%nat)
    /\ submitted (snd (sendTransactionWithRetry endpoints rpc walletReady cur w))
       = submitted w ++ added
    /\ map fst added `sublist_of` seq cur (S k).
Proof.
  destruct (sendTransactionWithRetry_invariant cur w)
    as (k & added & H1 & H2 & H3 & H4 & _).
  by exists k, added.
Qed.

(** X19.  A transaction is handed to an endpoint only after that endpoint
    answered the probe, the nonce, the fee data and the balance, and the
    balance covers the marked-up gas price times 500000.  It is a legacy
    transaction (type 0) with the nonce of that endpoint and a gas limit
    that is the estimate times 1.5, or one million when the estimate failed
    or came out as zero: never zero. *)
Theorem sendTransactionWithRetry_submissions cur w :
  exists added,
    submitted (snd (sendTransactionWithRetry endpoints rpc walletReady cur w))
    = submitted w ++ added
    /\ Forall (fun io =>
                 submission (rpc (fst io)) (snd io)
                 /\ o_gasLimit (snd io) = gasLimitFor (rpc (fst io))
                 /\ o_gasLimit (snd io) <> 0
                 /\ o_type (snd io) = Some 0) added.
Proof.
  destruct (sendTransactionWithRetry_invariant cur w)
    as (k & added & _ & _ & H3 & _ & H5 & _).
  exists added. split; [done|]. eapply Forall_impl; [exact H5|].
  intros [i o] Hsub. split; [done|]. simpl in *.
  destruct Hsub as (? & ? & ? & ? & _ & _ & _ & _ & _ & ->). simpl.
  split; [done|]. split; [apply gasLimitFor_nonzero|done].
Qed.

End SendMore.

Section SendOutcome.
Import Contract Ethers Spec More.

(** X20.  [sendTransactionWithRetry] returns a receipt only when the last
    endpoint it tried took the transaction and reported it mined with a
    truthy status.  Every error it throws has one of five fixed messages,
    whatever the failure was; without a wallet that is
    ['Transaction failed'] after one try, not ['Wallet not initialized']. *)
Theorem sendTransactionWithRetry_outcome endpoints rpc walletReady cur w :
  match fst (sendTransactionWithRetry endpoints rpc walletReady cur w) with
  | Js.Returned receipt =>
      r_status receipt = true
      /\ exists i o,
           last (attempted
                   (snd (sendTransactionWithRetry endpoints rpc walletReady
                                                  cur w))) = Some i
           /\ last (submitted
                      (snd (sendTransactionWithRetry endpoints rpc walletReady
                                                     cur w))) = Some (i, o)
           /\ waitTx (rpc i) = Mined receipt
  | Js.Thrown e => exists m, m ∈ SEND_MESSAGES /\ e = Js.error m
  end
  /\ sendTransactionWithRetry endpoints rpc false cur w
     = (Js.Thrown (Js.error "Transaction failed"), logAttempt cur w).
Proof.
  split.
  - destruct (sendTransactionWithRetry_invariant endpoints rpc walletReady cur w)
      as (k & added & H1 & _ & H3 & _ & _ & H6).
    destruct (fst (sendTransactionWithRetry endpoints rpc walletReady cur w))
      as [receipt|e].
    + destruct H6 as (Hst & Hw & o & Ho). split; [done|].
      exists (cur + k)%nat, o. rewrite H1, H3.
      split; [|split; [by rewrite last_app, Ho|done]].
      rewrite seq_S, app_assoc. apply last_snoc.
    + destruct H6 as [cause ->]. eexists. split; [|done].
      apply specificMessage_known.
  - rewrite send_unfold.
    unfold attempt, tryBlock, catchBlock. js_unfold. simpl.
    by rewrite andb_false_r.
Qed.

End SendOutcome.

Section EndGameMore.
Import Contract Ethers Spec More.

Ltac end_simpl :=
  unfold addToQueue, pushLocalScore, recordCall, setTransactionPending,
    Queue.addToQueue in *; simpl in *;
  rewrite ?readLocalScores_insert, <- ?app_assoc in *; simpl in *.





(** X23.  [endGame] only ever adds to the queue: between one and four end
    records of this game, the last of them confirmed.  It never settles the
    pending records it adds, since the confirmation is a record of its own:
    the added records hold a pending one exactly when the call got as far
    as announcing the transaction, whatever happened afterwards. *)
Theorem endGame_adds_records_and_settles_none
    env gameId finalScore totalJumps w :
  exists added,
    queue (snd (endGame true env gameId finalScore totalJumps w))
    = queue w ++ added
    /\ (1 <= length added <= 4)%nat
    /\ Forall (endRecordOf gameId finalScore totalJumps) added
    /\ (exists tx, last added = Some tx /\ tx_status tx = Some confirmed)
    /\ Queue.hasPending added = announced env gameId finalScore.
Proof.
  unfold endGame, submit, verifyGame, fallback, announced, endRecordOf.
  js_unfold. simpl.
  repeat (inner_case; simpl).
  all: end_simpl.
  all: eexists; split; [reflexivity|]; simpl.
  all: split; [lia|].
  all: split; [repeat constructor; eexists; by repeat split|].
  all: split; [by eexists|].
  all: done.
Qed.

End EndGameMore.

(** ** startGame *)

Section StartMore.
Import Start More.

Ltac start_simpl :=
  unfold addToQueue, recordCall, setTransactionPending, Queue.addToQueue in *;
  simpl in *; rewrite <- ?app_assoc in *; simpl in *.

(** X24.  [startGame] returns a game id only when the receipt carried one
    that is not zero; the queue has then gained, under one id, the pending
    record, the pending record with the hash and a confirmed record with
    the game id, and one contract call was made.  When it throws, the
    records it added, two at most, are all pending and stay so.  Either way
    the [transactionPending] flag is down at the end. *)
Theorem startGame_outcome env w :
  transactionPending (snd (startGame env w)) = false
  /\ match fst (startGame env w) with
     | Js.Returned gameId =>
         gameId <> 0
         /\ startGameWait env = Mined (Js.Returned (Some gameId))
         /\ calls (snd (startGame env w)) = S (calls w)
         /\ exists first second third txHash,
              queue (snd (startGame env w))
              = queue w ++ [first; second; third]
              /\ startGameTx env = Js.Returned txHash
              /\ pendingStart env first /\ tx_hash first = None
              /\ pendingStart env second /\ tx_hash second = Some txHash
              /\ tx_id third = tx_id first /\ tx_type third = tx_start
              /\ tx_status third = Some confirmed
              /\ tx_hash third = Some txHash
              /\ (d_gameId <$> tx_data third) = Some (Some gameId)
     | Js.Thrown e =>
         (calls (snd (startGame env w)) <= S (calls w))%nat
         /\ exists added,
              queue (snd (startGame env w)) = queue w ++ added
              /\ (length added <= 2)%nat
              /\ Forall (pendingStart env) added
     end.
Proof.
  unfold startGame, awaitGameId, pendingStart. js_unfold. simpl.
  repeat (inner_case; simpl).
  all: start_simpl.
  all: split; [done|].
  all: try (split; [lia|]; first
         [ exists []; rewrite app_nil_r; split; [done|]; split; [simpl; lia|done]
         | eexists; split; [reflexivity|]; split; [simpl; lia|];
           by repeat constructor ]).
  all: try done.
  all: split; [done|]; split; [by repeat f_equal|]; split; [done|].
  all: do 4 eexists; split; [reflexivity|]; by repeat split.
Qed.

End StartMore.

(** ** switchToSomniaTestnet *)

Section NetworkMore.
Import Network More.


Ltac no_member H :=
  repeat (apply elem_of_cons in H as [H|H]; try discriminate);
  try (by apply elem_of_nil in H).

(** X26.  What [switchToSomniaTestnet] asks of the wallet: nothing without
    a wallet; first the chain id; a switch only when that is not Somnia's;
    the adding of the network only when the switch failed with code 4902;
    after a switch that failed in another way, also by the user's refusal,
    nothing more. *)
Theorem switchToSomniaTestnet_requests env log :
  exists asked,
    snd (switchToSomniaTestnet env log) = log ++ asked
    /\ asked `sublist_of`
         [EthChainId; SwitchChain; AddChain; EthChainId; EthChainId]
    /\ (if hasEthereum env then head asked = Some EthChainId else asked = [])
    /\ (SwitchChain ∈ asked ->
        exists atStart, chainIdAtStart env = Js.Returned atStart
                        /\ onSomnia atStart = false)
    /\ (AddChain ∈ asked -> switchChain env = SwitchFailed (Some 4902))
    /\ match switchChain env with
       | Switched => True
       | SwitchFailed code =>
           code <> Some 4902 -> (length asked <= 2)%nat
       end.
Proof.
  unfold switchToSomniaTestnet, onSwitchError, request. js_unfold. simpl.
  repeat (inner_case; simpl).
  all: simpl in *; try discriminate.
  all: rewrite <- ?app_assoc; simpl.
  all: first [exists []; rewrite app_nil_r; split; [done|]
             |eexists; split; [reflexivity|]].
  all: split; [repeat first [apply sublist_nil | apply sublist_skip
                            | apply sublist_cons]|].
  all: split; [done|].
  all: split;
    [intros Hin;
     first [by no_member Hin
           |eexists; split; [reflexivity|]; done]|].
  all: split;
    [intros Hin;
     first [by no_member Hin
           |match goal with
            | H : bool_decide (_ = Some 4902) = true |- _ =>
                apply bool_decide_eq_true in H; congruence
            end]|].
  all: try done.
  all: intros Hcode; simpl; try lia.
  all: exfalso; match goal with
                | H : bool_decide (_ = Some 4902) = true |- _ =>
                    apply bool_decide_eq_true in H; congruence
                end.
Qed.

End NetworkMore.
